(** * The post-editing admin route: loader and action of [posts/admin/$slug]

    The repository holds two near-duplicate Remix route modules for the page
    that edits or deletes one blog post:

    - [src/unnamed/part_000]: the variant without a session check;
    - [src/app/routes/posts/admin/$slug.tsx]: the variant whose [action]
      starts with [requireUserId(request)].

    Both export an [action] (form submission handler) and a [loader]
    (data fetch before rendering).  The handlers are asynchronous programs
    that talk to collaborators living in other modules ([~/models/post.server],
    [~/session.server]) and to the web platform ([request.formData()]).  They
    are embedded here as terms of a small free monad [Prog] whose visible
    operations are exactly those outside calls; an interpreter [run] executes
    a program against an arbitrary environment and records the calls made. *)

From stdpp Require Import gmap strings list fin_maps.

Open Scope string_scope.

(** ** JavaScript values that reach the handlers *)

(** A Web [File] as carried by a multipart form field. *)
Record File := { file_name : string; file_size : N }.

(** [FormDataEntryValue = string | File]. *)
Inductive FormDataEntryValue :=
| FString (s : string)
| FFile (f : File).

(** A [FormData] is an ordered list of name/value entries; a name may occur
    more than once. *)
Abbreviation FormData := (list (string * FormDataEntryValue)).

(** [formData.get(name)]: the value of the first entry called [name], or
    [null] ([None]). *)
Fixpoint FormData_get (formData : FormData) (name : string)
  : option FormDataEntryValue :=
  match formData with
  | [] => None
  | (k, v) :: rest => if decide (k = name) then Some v else FormData_get rest name
  end.

(** [Object.fromEntries(formData)]: entries are written into a fresh object
    in iteration order, so a later entry overwrites an earlier one of the
    same name. *)
Definition Object_fromEntries (formData : FormData)
  : gmap string FormDataEntryValue :=
  foldl (λ obj entry, <[entry.1 := entry.2]> obj) ∅ formData.

(** [const { _action, ...values } = Object.fromEntries(formData)]: the
    destructured [_action]; [None] is [undefined]. *)
Definition _action (formData : FormData) : option FormDataEntryValue :=
  Object_fromEntries formData !! "_action".

(** [v === "literal"] for a form value or [undefined]/[null]. *)
Definition strict_equals (v : option FormDataEntryValue) (literal : string) : bool :=
  match v with
  | Some (FString s) => bool_decide (s = literal)
  | _ => false
  end.

(** JavaScript truthiness of [FormDataEntryValue | null]: [null] and the
    empty string are falsy, every other string and every [File] object is
    truthy. *)
Definition truthy (v : option FormDataEntryValue) : bool :=
  match v with
  | None => false
  | Some (FString s) => negb (bool_decide (s = ""))
  | Some (FFile _) => true
  end.

(** Truthiness of [null | string] (an entry of the errors object) and of
    [string | undefined] (a route parameter). *)
Definition truthy_string (v : option string) : bool :=
  match v with
  | None => false
  | Some s => negb (bool_decide (s = ""))
  end.

(** ** Data of the route *)

(** Modelled from the spec: the [Post] type is imported from
    [~/models/post.server], which is not part of the route files; the spec
    gives its shape as [{ slug, title, markdown }]. *)
Module Post.
Record t := mk { slug : string; title : string; markdown : string }.
End Post.

(** [type ActionData = { title: null | string; slug: null | string;
    markdown: null | string } | undefined]. *)
Module ActionData.
Record t := mk {
  title : option string;
  slug : option string;
  markdown : option string
}.
End ActionData.

(** [Object.values(errors)], in property creation order. *)
Definition Object_values (errors : ActionData.t) : list (option string) :=
  [ActionData.title errors; ActionData.slug errors; ActionData.markdown errors].

(** [type LoaderData = { post: Post }]. *)
Module LoaderData.
Record t := mk { post : Post.t }.
End LoaderData.

(** The incoming request, as far as the collaborators look at it. *)
Record Request := {
  request_cookie : option string;
  request_body : list (string * FormDataEntryValue)
}.

(** Route parameters: [params.slug] is [params !! "slug"]. *)
Abbreviation Params := (gmap string string).

(** What a handler hands back to the framework: [redirect(url)] or
    [json(data)]. *)
Inductive Response (D : Type) :=
| redirect (url : string)
| json (data : D).
Arguments redirect {D} url.
Arguments json {D} data.

(** ** Programs *)

(** Values a handler can throw (or reject with): a failed [invariant], a
    [Response] thrown by a collaborator (the session gate redirects this
    way), or any other error of a collaborator. *)
Inductive Thrown :=
| InvariantFailed (message : string)
| ThrownRedirect (url : string)
| ThrownError (message : string).

(** Calls that leave the route module. *)
Inductive Call :=
| RequireUserId (request : Request)
| RequestFormData (request : Request)
| GetPost (slug : string)
| UpdatePost (initialSlug : string) (fields : Post.t)
| DeletePost (slug : option FormDataEntryValue).

(** The type of the value each call resolves to.  The values of
    [updatePost] and [deletePost] are discarded by the handlers. *)
Definition Reply (c : Call) : Type :=
  match c with
  | RequireUserId _ => string
  | RequestFormData _ => FormData
  | GetPost _ => option Post.t
  | UpdatePost _ _ => unit
  | DeletePost _ => unit
  end.

Inductive Prog (R : Type) : Type :=
| Ret (r : R)
| Throw (e : Thrown)
| Do (c : Call) (k : Reply c → Prog R).
Arguments Ret {R} r.
Arguments Throw {R} e.
Arguments Do {R} c k.

Fixpoint Prog_bind {A B} (k : A → Prog B) (m : Prog A) : Prog B :=
  match m with
  | Ret a => k a
  | Throw e => Throw e
  | Do c k' => Do c (λ x, Prog_bind k (k' x))
  end.

#[global] Instance Prog_mret : MRet Prog := @Ret.
#[global] Instance Prog_mbind : MBind Prog := @Prog_bind.

(** [await c(...)] for each collaborator. *)
Definition requireUserId (request : Request) : Prog string :=
  Do (RequireUserId request) Ret.
Definition request_formData (request : Request) : Prog FormData :=
  Do (RequestFormData request) Ret.
Definition getPost (slug : string) : Prog (option Post.t) :=
  Do (GetPost slug) Ret.
Definition updatePost (initialSlug : string) (fields : Post.t) : Prog unit :=
  Do (UpdatePost initialSlug fields) Ret.
Definition deletePost (slug : option FormDataEntryValue) : Prog unit :=
  Do (DeletePost slug) Ret.

(** [invariant(condition, message)] of [tiny-invariant], together with the
    type narrowing TypeScript derives from it: [narrow value] is [Some] of
    the narrowed value when the condition holds of [value]. *)
Definition invariant {A B} (narrow : A → option B) (value : A) (message : string)
  : Prog B :=
  match narrow value with
  | Some b => Ret b
  | None => Throw (InvariantFailed message)
  end.

(** [typeof v === "string"]. *)
Definition typeof_string (v : option FormDataEntryValue) : option string :=
  match v with
  | Some (FString s) => Some s
  | _ => None
  end.

(** A truthy [string | undefined] is a non-empty string. *)
Definition narrow_truthy_string (v : option string) : option string :=
  if truthy_string v then v else None.

(** A truthy [Post | null] is a post. *)
Definition narrow_post (v : option Post.t) : option Post.t := v.

(** ** The handlers of [src/unnamed/part_000] *)

Module Unauth.

Definition action (request : Request) : Prog (Response ActionData.t) :=
  formData ← request_formData request;
  if strict_equals (_action formData) "delete" then
    let slug := FormData_get formData "slug" in
    deletePost slug;;
    mret (redirect "/posts/admin")
  else
    let initialSlug := FormData_get formData "initialSlug" in
    let title := FormData_get formData "title" in
    let slug := FormData_get formData "slug" in
    let markdown := FormData_get formData "markdown" in
    let errors :=
      {| ActionData.title := if truthy title then None else Some "Title is required";
         ActionData.slug := if truthy slug then None else Some "Slug is required";
         ActionData.markdown :=
           if truthy markdown then None else Some "Markdown is required" |} in
    let hasErrors := existsb truthy_string (Object_values errors) in
    if hasErrors then mret (json errors)
    else
      initialSlug ← invariant typeof_string initialSlug "initial slug must be a string";
      title ← invariant typeof_string title "title must be a string";
      slug ← invariant typeof_string slug "slug must be a string";
      markdown ← invariant typeof_string markdown "markdown must be a string";
      updatePost initialSlug (Post.mk slug title markdown);;
      mret (redirect "/posts/admin").

Definition loader (params : Params) : Prog (Response LoaderData.t) :=
  slug ← invariant narrow_truthy_string (params !! "slug") "params.slug is required";
  post ← getPost slug;
  post ← invariant narrow_post post ("Post not found: " +:+ slug);
  mret (json (LoaderData.mk post)).

End Unauth.

(** ** The handlers of [src/app/routes/posts/admin/$slug.tsx] *)

Module Authed.

Definition action (request : Request) : Prog (Response ActionData.t) :=
  userId ← requireUserId request;
  formData ← request_formData request;
  if strict_equals (_action formData) "delete" then
    let slug := FormData_get formData "slug" in
    (* [slug as string]: the cast is erased at run time *)
    deletePost slug;;
    mret (redirect "/posts/admin")
  else
    let initialSlug := FormData_get formData "initialSlug" in
    let title := FormData_get formData "title" in
    let slug := FormData_get formData "slug" in
    let markdown := FormData_get formData "markdown" in
    let errors :=
      {| ActionData.title := if truthy title then None else Some "Title is required";
         ActionData.slug := if truthy slug then None else Some "Slug is required";
         ActionData.markdown :=
           if truthy markdown then None else Some "Markdown is required" |} in
    let hasErrors := existsb truthy_string (Object_values errors) in
    if hasErrors then mret (json errors)
    else
      initialSlug ← invariant typeof_string initialSlug "initial slug must be a string";
      title ← invariant typeof_string title "title must be a string";
      slug ← invariant typeof_string slug "slug must be a string";
      markdown ← invariant typeof_string markdown "markdown must be a string";
      updatePost initialSlug (Post.mk slug title markdown);;
      mret (redirect "/posts/admin").

Definition loader (params : Params) : Prog (Response LoaderData.t) :=
  slug ← invariant narrow_truthy_string (params !! "slug") "params.slug is required";
  post ← getPost slug;
  post ← invariant narrow_post post ("Post not found: " +:+ slug);
  mret (json (LoaderData.mk post)).

End Authed.

(** ** Running a handler *)

(** The outcome of a run: the outside calls in the order they were made,
    the value returned or thrown, and the environment left behind. *)
Record Outcome (W R : Type) := {
  calls : list Call;
  result : Thrown + R;
  final : W
}.
Arguments calls {W R} o.
Arguments result {W R} o.
Arguments final {W R} o.

(** The calls that touch stored posts by writing. *)
Definition is_persistence (c : Call) : bool :=
  match c with
  | UpdatePost _ _ | DeletePost _ => true
  | _ => false
  end.

Definition persistence {W R} (o : Outcome W R) : list Call :=
  List.filter is_persistence (calls o).

Section Run.
Context {W : Type}.

(** The environment: every outside call either resolves to a value or
    rejects, and may change the environment. *)
Variable perform : ∀ c : Call, W → (Thrown + Reply c) * W.

Definition replies (w : W) (c : Call) (x : Reply c) (w' : W) : Prop :=
  perform c w = (inr x, w').

Definition rejects (w : W) (c : Call) (e : Thrown) (w' : W) : Prop :=
  perform c w = (inl e, w').

Definition called {R} (c : Call) (o : Outcome W R) : Outcome W R :=
  {| calls := c :: calls o; result := result o; final := final o |}.

Fixpoint run {R} (p : Prog R) (w : W) : Outcome W R :=
  match p with
  | Ret r => {| calls := []; result := inr r; final := w |}
  | Throw e => {| calls := []; result := inl e; final := w |}
  | Do c k =>
      match perform c w with
      | (inl e, w') => {| calls := [c]; result := inl e; final := w' |}
      | (inr x, w') => called c (run (k x) w')
      end
  end.

End Run.

(** ** An in-memory environment *)

(** A small environment to run the handlers against: posts in a map keyed
    by slug, sessions recognised by a cookie. *)
Module Memory.

Abbreviation World := (gmap string Post.t).

(** Modelled from the spec: the persistence layer ([getPost], [updatePost],
    [deletePost] of [~/models/post.server]) and the session gate
    ([requireUserId] of [~/session.server]) are outside the route files.
    The spec describes posts as records keyed by a unique slug, an update
    as keyed by the initial slug and able to rename the post, a delete as
    keyed by the slug, and the gate as ending the request when there is no
    valid session.  This store never rejects a persistence call; the gate
    rejects a request without a session cookie. *)
Definition perform (c : Call) (w : World) : (Thrown + Reply c) * World :=
  match c as c0 return (Thrown + Reply c0) * World with
  | RequireUserId request =>
      match request_cookie request with
      | Some userId => (inr userId, w)
      | None => (inl (ThrownRedirect "/login"), w)
      end
  | RequestFormData request => (inr (request_body request), w)
  | GetPost slug => (inr (w !! slug), w)
  | UpdatePost initialSlug fields =>
      (inr tt, <[Post.slug fields := fields]> (delete initialSlug w))
  | DeletePost (Some (FString slug)) => (inr tt, delete slug w)
  | DeletePost _ => (inr tt, w)
  end.

Definition hello : Post.t := Post.mk "my-post" "Hello" "# Hello".

Definition store : World := {[ "my-post" := hello ]}.

(** A form submission without a session cookie, and one with. *)
Definition anonymous (body : FormData) : Request :=
  {| request_cookie := None; request_body := body |}.

Definition signed_in (body : FormData) : Request :=
  {| request_cookie := Some "user-1"; request_body := body |}.

(** The submissions used as examples below. *)
Definition delete_form : FormData :=
  [("_action", FString "delete"); ("slug", FString "my-post")].

Definition blank_title_form : FormData :=
  [("title", FString ""); ("slug", FString "x"); ("markdown", FString "y")].

Definition update_form : FormData :=
  [("initialSlug", FString "my-post"); ("title", FString "Hello again");
   ("slug", FString "hello-again"); ("markdown", FString "# Hello again")].

Definition hello_again : Post.t :=
  Post.mk "hello-again" "Hello again" "# Hello again".

Definition no_initialSlug_form : FormData :=
  [("title", FString "Hello again"); ("slug", FString "hello-again");
   ("markdown", FString "# Hello again")].

Definition delete_no_slug_form : FormData := [("_action", FString "delete")].

Definition capital_Delete_form : FormData :=
  [("_action", FString "Delete"); ("slug", FString "my-post")].

Definition delete_with_fields_form : FormData :=
  ("_action", FString "delete") :: no_initialSlug_form.

(** The store after [update_form] has been applied to [store]. *)
Definition renamed : World :=
  <["hello-again" := hello_again]> (delete "my-post" store).

(** Route parameters of [/posts/admin/my-post] and [/posts/admin/nope]. *)
Definition params_my_post : Params := {[ "slug" := "my-post" ]}.
Definition params_nope : Params := {[ "slug" := "nope" ]}.

End Memory.

(** ** The two variants side by side *)

Inductive Variant := Unauthenticated | Authenticated.

Definition action_of (v : Variant) : Request → Prog (Response ActionData.t) :=
  match v with
  | Unauthenticated => Unauth.action
  | Authenticated => Authed.action
  end.

Definition loader_of (v : Variant) : Params → Prog (Response LoaderData.t) :=
  match v with
  | Unauthenticated => Unauth.loader
  | Authenticated => Authed.loader
  end.

(** The calls an action makes before it looks at the submitted fields. *)
Definition prelude (v : Variant) (request : Request) : list Call :=
  match v with
  | Unauthenticated => [RequestFormData request]
  | Authenticated => [RequireUserId request; RequestFormData request]
  end.

Section Received.
Context {W : Type}.
Variable perform : ∀ c : Call, W → (Thrown + Reply c) * W.

(** Started in [w], the action of variant [v] gets as far as holding the
    submitted [formData], with the environment then in [w']: the form
    body parses and, in the authenticated variant, the session check
    before it succeeds. *)
Definition receives (v : Variant) (w : W) (request : Request)
    (formData : FormData) (w' : W) : Prop :=
  match v with
  | Unauthenticated => replies perform w (RequestFormData request) formData w'
  | Authenticated =>
      ∃ userId w0,
        replies perform w (RequireUserId request) userId w0
        ∧ replies perform w0 (RequestFormData request) formData w'
  end.

End Received.

(** ** Vocabulary of the specification *)

(** A delete submission: the [_action] field equals ["delete"]. *)
Definition delete_submission (formData : FormData) : Prop :=
  _action formData = Some (FString "delete").

(** An update submission: any other submission. *)
Definition update_submission (formData : FormData) : Prop :=
  _action formData ≠ Some (FString "delete").

(** A field is empty or absent. *)
Definition empty_or_absent (formData : FormData) (name : string) : Prop :=
  FormData_get formData name = None ∨ FormData_get formData name = Some (FString "").

(** A field is present with a non-empty string value. *)
Definition filled (formData : FormData) (name : string) (value : string) : Prop :=
  FormData_get formData name = Some (FString value) ∧ value ≠ "".

(** A field is present and non-empty: it has a value other than the empty
    string. *)
Definition present_nonempty (formData : FormData) (name : string) : Prop :=
  ∃ value, FormData_get formData name = Some value ∧ value ≠ FString "".

(** The route's slug parameter is missing: there is none, or it is the
    empty string. *)
Definition slug_missing (params : Params) : Prop :=
  params !! "slug" = None ∨ params !! "slug" = Some "".

(** The route's slug parameter is present, with value [slug]. *)
Definition slug_present (params : Params) (slug : string) : Prop :=
  params !! "slug" = Some slug ∧ slug ≠ "".

(** The message, or [null], the errors object holds for a field. *)
Definition error_entry (formData : FormData) (name message : string) : option string :=
  match FormData_get formData name with
  | None | Some (FString "") => Some message
  | _ => None
  end.

(** ** The page component [EditPostSlug]

    The default export of both route modules is a React component.  A
    render is embedded as a function from the values its hooks return to
    the element tree it builds; the tree keeps every attribute of the
    source.  What the browser and the framework do with that tree (which
    entries a form submission carries, what a click on a button does) is
    written out next to it. *)

(** The [useRef] handles of the three editable fields. *)
Inductive Ref := titleRef | slugRef | markdownRef.

(** What a handler of the page does when it runs.  A button's [onClick]
    calls [event.preventDefault()] or not and may call [setActiveButton]
    and [setShowDeleteModal] ([None]: not called); the dialog's
    [onConfirm] is [document.querySelector(selector)!.click()]. *)
Inductive Handler :=
| handler (preventDefault : bool) (setActiveButton : option string)
    (setShowDeleteModal : option bool)
| click_on (selector : string).

Inductive PropValue :=
| PString (s : string)
| PBool (b : bool)
| PNumber (n : N)
| PRef (r : Ref)
| PHandler (h : Handler).

#[local] Set Warnings "-register-all".
Inductive Jsx :=
| Text (s : string)
| Null
| Element (tag : string) (props : list (string * PropValue)) (children : list Jsx).

(** The values the hooks hand to one render. *)
Record Hooks := {
  useActionData : option ActionData.t;
  useLoaderData : LoaderData.t;
  (** [useTransition().submission] *)
  transition_submission : option (list (string * FormDataEntryValue));
  (** [useState<string>()], authenticated variant *)
  activeButton : option string;
  (** [useState(false)], authenticated variant *)
  showDeleteModal : bool
}.

(** [Boolean(v)] of an object or [undefined]. *)
Definition Boolean {A} (v : option A) : bool :=
  match v with
  | Some _ => true
  | None => false
  end.

(** [v === "literal"] for [string | undefined]. *)
Definition string_strict_equals (v : option string) (literal : string) : bool :=
  bool_decide (v = Some literal).

Definition inputClassName : string :=
  "w-full rounded border border-gray-500 px-2 py-1 text-lg".

(** [{errors?.field ? (<em className="text-red-600">{errors.field}</em>) : null}] *)
Definition error_message (errors : option ActionData.t)
    (field : ActionData.t → option string) : Jsx :=
  match errors ≫= field with
  | Some message =>
      if truthy_string (Some message)
      then Element "em" [("className", PString "text-red-600")] [Text message]
      else Null
  | None => Null
  end.

(** *** [src/unnamed/part_000] *)

Module UnauthView.

Definition EditPostSlug (h : Hooks) : Jsx :=
  let errors := useActionData h in
  let post := LoaderData.post (useLoaderData h) in
  let isUpdating := Boolean (transition_submission h) in
  Element "Form" [("method", PString "post")]
    [ Element "input"
        [("type", PString "hidden"); ("name", PString "initialSlug");
         ("value", PString (Post.slug post))] [];
      Element "p" []
        [ Element "label" []
            [ Text "Post Title:"; Text " ";
              error_message errors ActionData.title;
              Element "input"
                [("type", PString "text"); ("name", PString "title");
                 ("className", PString inputClassName); ("ref", PRef titleRef);
                 ("defaultValue", PString (Post.title post))] [] ] ];
      Element "p" []
        [ Element "label" []
            [ Text "Post Slug:"; Text " ";
              error_message errors ActionData.slug;
              Element "input"
                [("type", PString "text"); ("name", PString "slug");
                 ("className", PString inputClassName); ("ref", PRef slugRef);
                 ("defaultValue", PString (Post.slug post))] [] ] ];
      Element "p" []
        [ Element "label" [("htmlFor", PString "markdown")]
            [ Text "Markdown:"; Text " ";
              error_message errors ActionData.markdown ];
          Element "br" [] [];
          Element "textarea"
            [("id", PString "markdown"); ("rows", PNumber 20);
             ("name", PString "markdown");
             ("className", PString (inputClassName +:+ " font-mono"));
             ("ref", PRef markdownRef);
             ("defaultValue", PString (Post.markdown post))] [] ];
      Element "p" [("className", PString "flex flex-row-reverse text-right")]
        [ Element "button"
            [("type", PString "submit");
             ("className", PString "rounded bg-blue-500 py-2 px-4 text-white hover:bg-blue-600 focus:bg-blue-400 disabled:bg-blue-300");
             ("disabled", PBool isUpdating)]
            [ Text (if isUpdating then "Updating..." else "Update Post") ];
          Element "button"
            [("type", PString "submit"); ("aria-label", PString "delete");
             ("name", PString "_action"); ("value", PString "delete");
             ("className", PString "mx-4 rounded bg-red-500 py-2 px-4 text-white hover:bg-red-600 focus:bg-red-400 disabled:bg-red-300")]
            [ Text "Delete Post" ] ] ].

End UnauthView.

(** *** [src/app/routes/posts/admin/$slug.tsx] *)

Module AuthedView.

(** [DeleteModal] hands its props on to [DangerModal], a component of
    another module. *)
Definition DeleteModal (children confirmButtonLabel : string)
    (onClose onConfirm : Handler) (title : string) : Jsx :=
  Element "DangerModal"
    [("confirmButtonLabel", PString confirmButtonLabel);
     ("onClose", PHandler onClose);
     ("onConfirm", PHandler onConfirm);
     ("title", PString title)]
    [ Text children ].

Definition EditPostSlug (h : Hooks) : Jsx :=
  let errors := useActionData h in
  let post := LoaderData.post (useLoaderData h) in
  let isSubmitting := Boolean (transition_submission h) in
  let isUpdating := isSubmitting && string_strict_equals (activeButton h) "update" in
  let isDeleting := isSubmitting && string_strict_equals (activeButton h) "delete" in
  Element "Form" [("method", PString "post")]
    [ Element "input"
        [("type", PString "hidden"); ("name", PString "initialSlug");
         ("value", PString (Post.slug post))] [];
      Element "p" []
        [ Element "label" []
            [ Text "Post Title:"; Text " ";
              error_message errors ActionData.title;
              Element "input"
                [("type", PString "text"); ("name", PString "title");
                 ("className", PString inputClassName); ("ref", PRef titleRef);
                 ("defaultValue", PString (Post.title post))] [] ] ];
      Element "p" []
        [ Element "label" []
            [ Text "Post Slug:"; Text " ";
              error_message errors ActionData.slug;
              Element "input"
                [("type", PString "text"); ("name", PString "slug");
                 ("className", PString inputClassName); ("ref", PRef slugRef);
                 ("defaultValue", PString (Post.slug post))] [] ] ];
      Element "p" []
        [ Element "label" [("htmlFor", PString "markdown")]
            [ Text "Markdown:"; Text " ";
              error_message errors ActionData.markdown ];
          Element "br" [] [];
          Element "textarea"
            [("id", PString "markdown"); ("rows", PNumber 20);
             ("name", PString "markdown");
             ("className", PString (inputClassName +:+ " font-mono"));
             ("ref", PRef markdownRef);
             ("defaultValue", PString (Post.markdown post))] [] ];
      Element "p" [("className", PString "flex flex-row-reverse text-right")]
        [ Element "button"
            [("type", PString "submit");
             ("className", PString "rounded bg-blue-500 py-2 px-4 text-white hover:bg-blue-600 focus:bg-blue-400 disabled:bg-blue-300");
             ("onClick", PHandler (handler false (Some "update") None));
             ("disabled", PBool isSubmitting)]
            [ Text (if isUpdating then "Updating..." else "Update Post") ];
          Element "button"
            [("type", PString "submit"); ("aria-label", PString "delete");
             ("id", PString "delete-post");
             ("name", PString "_action"); ("value", PString "delete");
             ("className", PString "mx-4 rounded bg-red-500 py-2 px-4 text-white hover:bg-red-600 focus:bg-red-400 disabled:bg-red-300");
             ("onClick",
              PHandler (if showDeleteModal h
                        then handler false (Some "delete") None
                        else handler true None (Some true)));
             ("disabled", PBool isSubmitting)]
            [ Text (if isDeleting then "Deleting..." else "Delete Post") ] ];
      if showDeleteModal h
      then DeleteModal "Are you sure you want to delete this post?"
             (if isDeleting then "Deleting..." else "Delete Post")
             (handler false None (Some false))
             (click_on "#delete-post")
             "Delete Post"
      else Null ].

End AuthedView.

(** [useEffect(() => { if (!transition.submission) setActiveButton("") },
    [transition])], when it runs. *)
Definition transition_effect (h : Hooks) : Hooks :=
  if Boolean (transition_submission h) then h
  else {| useActionData := useActionData h;
          useLoaderData := useLoaderData h;
          transition_submission := transition_submission h;
          activeButton := Some "";
          showDeleteModal := showDeleteModal h |}.


(** *** The document and its events *)

(** A property of an element. *)
Definition prop (name : string) (el : Jsx) : option PropValue :=
  match el with
  | Element _ props _ => snd <$> List.find (λ p, bool_decide (p.1 = name)) props
  | _ => None
  end.

Definition string_prop (name : string) (el : Jsx) : option string :=
  match prop name el with
  | Some (PString s) => Some s
  | _ => None
  end.

Definition tag_of (el : Jsx) : string :=
  match el with
  | Element tag _ _ => tag
  | _ => ""
  end.

(** The elements of a tree in document order. *)
Fixpoint elements (j : Jsx) : list Jsx :=
  match j with
  | Element tag props children =>
      j :: (fix go (cs : list Jsx) : list Jsx :=
              match cs with
              | [] => []
              | c :: cs' => (elements c ++ go cs')%list
              end) children
  | _ => []
  end.

(** [textContent]. *)
Fixpoint textContent (j : Jsx) : string :=
  match j with
  | Text s => s
  | Null => ""
  | Element _ _ children =>
      (fix go (cs : list Jsx) : string :=
         match cs with
         | [] => ""
         | c :: cs' => textContent c +:+ go cs'
         end) children
  end.

(** [document.querySelector(selector)] for an id selector [#id]. *)
Definition querySelector (root : Jsx) (selector : string) : option Jsx :=
  match selector with
  | String c id =>
      if bool_decide (String c "" = "#")
      then List.find (λ el, bool_decide (string_prop "id" el = Some id)) (elements root)
      else None
  | EmptyString => None
  end.

(** The submit button of a given name ([None]: the button without a
    name). *)
Definition button_named (root : Jsx) (name : option string) : option Jsx :=
  List.find
    (λ el, bool_decide (tag_of el = "button") && bool_decide (string_prop "name" el = name))
    (elements root).

Definition is_disabled (el : Jsx) : bool :=
  match prop "disabled" el with
  | Some (PBool b) => b
  | _ => false
  end.

(** The messages shown in red, in document order. *)
Definition error_texts (root : Jsx) : list string :=
  textContent <$> List.filter (λ el, bool_decide (tag_of el = "em")) (elements root).

(** The entry a text control contributes to a form submission: its name
    with its [value] attribute if it has one, else the current text of the
    field its [ref] points to. *)
Definition control_entry (field : Ref → string) (el : Jsx)
  : list (string * FormDataEntryValue) :=
  if bool_decide (tag_of el = "input") || bool_decide (tag_of el = "textarea") then
    match string_prop "name" el with
    | Some name =>
        match string_prop "value" el, prop "ref" el with
        | Some value, _ => [(name, FString value)]
        | None, Some (PRef r) => [(name, FString (field r))]
        | None, _ => [(name, FString (default "" (string_prop "defaultValue" el)))]
        end
    | None => []
    end
  else [].

(** The entries of a submission of the form through [button]: the form's
    text controls in document order, then the name and value of the
    button if it has a name. *)
Definition submission (field : Ref → string) (form : Jsx) (button : Jsx)
  : list (string * FormDataEntryValue) :=
  ((elements form ≫= control_entry field)
   ++ match string_prop "name" button, string_prop "value" button with
      | Some name, Some value => [(name, FString value)]
      | _, _ => []
      end)%list.

(** The page between two events: the hook values of its last render and
    the text currently in its fields. *)
Record Page := { hooks : Hooks; field : Ref → string }.

(** The state setters a handler calls, applied. *)
Definition set_state (hd : Handler) (h : Hooks) : Hooks :=
  match hd with
  | handler _ active modal =>
      {| useActionData := useActionData h;
         useLoaderData := useLoaderData h;
         transition_submission := transition_submission h;
         activeButton := match active with Some a => Some a | None => activeButton h end;
         showDeleteModal := default (showDeleteModal h) modal |}
  | click_on _ => h
  end.

Definition prevents_default (hd : Handler) : bool :=
  match hd with
  | handler prevented _ _ => prevented
  | click_on _ => false
  end.

(** The framework starts a submission: [useTransition().submission] is
    defined from then on. *)
Definition submitting (formData : list (string * FormDataEntryValue)) (h : Hooks)
  : Hooks :=
  {| useActionData := useActionData h;
     useLoaderData := useLoaderData h;
     transition_submission := Some formData;
     activeButton := activeButton h;
     showDeleteModal := showDeleteModal h |}.

(** A click on an element of the rendered page.  A disabled button ignores
    it.  Otherwise its [onClick] runs, and unless that prevented the
    default a submit button submits the form.  The result is the page
    afterwards and the submission made, if any. *)
Definition click (render : Hooks → Jsx) (target : Jsx) (page : Page)
  : Page * option (list (string * FormDataEntryValue)) :=
  if is_disabled target then (page, None)
  else
    let onClick :=
      match prop "onClick" target with
      | Some (PHandler hd) => hd
      | _ => handler false None None
      end in
    let h := set_state onClick (hooks page) in
    if prevents_default onClick then ({| hooks := h; field := field page |}, None)
    else if bool_decide (string_prop "type" target = Some "submit") then
      let formData := submission (field page) (render (hooks page)) target in
      ({| hooks := submitting formData h; field := field page |}, Some formData)
    else ({| hooks := h; field := field page |}, None).

(** The user presses the submit button of a given name. *)
Definition press (render : Hooks → Jsx) (name : option string) (page : Page)
  : Page * option (list (string * FormDataEntryValue)) :=
  match button_named (render (hooks page)) name with
  | Some button => click render button page
  | None => (page, None)
  end.

(** The dialog on the page, if it is shown. *)
Definition dialog (root : Jsx) : option Jsx :=
  List.find (λ el, bool_decide (tag_of el = "DangerModal")) (elements root).

(** The user confirms in the dialog: its [onConfirm] runs. *)
Definition confirm (render : Hooks → Jsx) (page : Page)
  : Page * option (list (string * FormDataEntryValue)) :=
  match dialog (render (hooks page)) ≫= prop "onConfirm" with
  | Some (PHandler (click_on selector)) =>
      match querySelector (render (hooks page)) selector with
      | Some target => click render target page
      | None => (page, None)
      end
  | Some (PHandler hd) =>
      ({| hooks := set_state hd (hooks page); field := field page |}, None)
  | _ => (page, None)
  end.

(** The user closes the dialog: its [onClose] runs. *)
Definition close (render : Hooks → Jsx) (page : Page) : Page :=
  match dialog (render (hooks page)) ≫= prop "onClose" with
  | Some (PHandler hd) => {| hooks := set_state hd (hooks page); field := field page |}
  | _ => page
  end.

(** The text on the submit button of a given name. *)
Definition button_label (root : Jsx) (name : option string) : option string :=
  textContent <$> button_named root name.

Definition button_disabled (root : Jsx) (name : option string) : option bool :=
  is_disabled <$> button_named root name.

(** ** Vocabulary for the complete behaviour of the action *)

(** The errors object the action builds for a form. *)
Definition errors_of (formData : FormData) : ActionData.t :=
  {| ActionData.title := error_entry formData "title" "Title is required";
     ActionData.slug := error_entry formData "slug" "Slug is required";
     ActionData.markdown := error_entry formData "markdown" "Markdown is required" |}.

(** An errors object carries at least one message. *)
Definition reports_some_error (errors : ActionData.t) : Prop :=
  is_Some (ActionData.title errors) ∨ is_Some (ActionData.slug errors)
  ∨ is_Some (ActionData.markdown errors).

(** Each entry of an errors object is [null] or the fixed message of its
    field. *)
Definition uses_fixed_messages (errors : ActionData.t) : Prop :=
  (ActionData.title errors = None ∨ ActionData.title errors = Some "Title is required")
  ∧ (ActionData.slug errors = None ∨ ActionData.slug errors = Some "Slug is required")
  ∧ (ActionData.markdown errors = None
     ∨ ActionData.markdown errors = Some "Markdown is required").

(** The messages of the four invariants of the update path. *)
Definition invariant_messages : list string :=
  ["initial slug must be a string"; "title must be a string";
   "slug must be a string"; "markdown must be a string"].

(** The message of the first invariant of the update path that fails, the
    invariants being checked in the order [initialSlug], [title], [slug],
    [markdown] (the last message when none fails before). *)
Definition first_failed_invariant (formData : FormData) : string :=
  match typeof_string (FormData_get formData "initialSlug"),
        typeof_string (FormData_get formData "title"),
        typeof_string (FormData_get formData "slug") with
  | None, _, _ => "initial slug must be a string"
  | Some _, None, _ => "title must be a string"
  | Some _, Some _, None => "slug must be a string"
  | Some _, Some _, Some _ => "markdown must be a string"
  end.

(** A field holds an uploaded file. *)
Definition holds_file (formData : FormData) (name : string) : Prop :=
  ∃ f, FormData_get formData name = Some (FFile f).

(** Two forms agree on the fields the action reads. *)
Definition same_fields_read (formData1 formData2 : FormData) : Prop :=
  _action formData1 = _action formData2
  ∧ ∀ name, name ∈ ["initialSlug"; "title"; "slug"; "markdown"] →
      FormData_get formData1 name = FormData_get formData2 name.

(** ** The cases of a run of the action *)

Section Rows.
Context {W : Type}.
Variable perform : ∀ c : Call, W → (Thrown + Reply c) * W.

(** The cases of a run of the unauthenticated action. *)
Inductive action_row (request : Request) (w : W)
  : Outcome W (Response ActionData.t) → Prop :=
| row_form_rejected e w1 :
    rejects perform w (RequestFormData request) e w1 →
    action_row request w
      {| calls := [RequestFormData request]; result := inl e; final := w1 |}
| row_deleted formData w1 w2 :
    replies perform w (RequestFormData request) formData w1 →
    delete_submission formData →
    replies perform w1 (DeletePost (FormData_get formData "slug")) tt w2 →
    action_row request w
      {| calls := [RequestFormData request; DeletePost (FormData_get formData "slug")];
         result := inr (redirect "/posts/admin");
         final := w2 |}
| row_delete_rejected formData w1 e w2 :
    replies perform w (RequestFormData request) formData w1 →
    delete_submission formData →
    rejects perform w1 (DeletePost (FormData_get formData "slug")) e w2 →
    action_row request w
      {| calls := [RequestFormData request; DeletePost (FormData_get formData "slug")];
         result := inl e;
         final := w2 |}
| row_invalid formData w1 :
    replies perform w (RequestFormData request) formData w1 →
    update_submission formData →
    empty_or_absent formData "title" ∨ empty_or_absent formData "slug"
      ∨ empty_or_absent formData "markdown" →
    action_row request w
      {| calls := [RequestFormData request];
         result := inr (json (errors_of formData));
         final := w1 |}
| row_invariant formData w1 message :
    replies perform w (RequestFormData request) formData w1 →
    update_submission formData →
    present_nonempty formData "title" →
    present_nonempty formData "slug" →
    present_nonempty formData "markdown" →
    message ∈ invariant_messages →
    action_row request w
      {| calls := [RequestFormData request];
         result := inl (InvariantFailed message);
         final := w1 |}
| row_updated formData w1 initialSlug title slug markdown w2 :
    replies perform w (RequestFormData request) formData w1 →
    update_submission formData →
    FormData_get formData "initialSlug" = Some (FString initialSlug) →
    filled formData "title" title →
    filled formData "slug" slug →
    filled formData "markdown" markdown →
    replies perform w1 (UpdatePost initialSlug (Post.mk slug title markdown)) tt w2 →
    action_row request w
      {| calls := [RequestFormData request;
                   UpdatePost initialSlug (Post.mk slug title markdown)];
         result := inr (redirect "/posts/admin");
         final := w2 |}
| row_update_rejected formData w1 initialSlug title slug markdown e w2 :
    replies perform w (RequestFormData request) formData w1 →
    update_submission formData →
    FormData_get formData "initialSlug" = Some (FString initialSlug) →
    filled formData "title" title →
    filled formData "slug" slug →
    filled formData "markdown" markdown →
    rejects perform w1 (UpdatePost initialSlug (Post.mk slug title markdown)) e w2 →
    action_row request w
      {| calls := [RequestFormData request;
                   UpdatePost initialSlug (Post.mk slug title markdown)];
         result := inl e;
         final := w2 |}.

End Rows.

(** ** Vocabulary for the page *)

(** The entries the text controls of the page contribute to a submission:
    the hidden [initialSlug] with the loaded post's slug, then the current
    text of the three fields. *)
Definition page_entries (page : Page) : list (string * FormDataEntryValue) :=
  [("initialSlug", FString (Post.slug (LoaderData.post (useLoaderData (hooks page)))));
   ("title", FString (field page titleRef));
   ("slug", FString (field page slugRef));
   ("markdown", FString (field page markdownRef))].

(** The hook values with the component state replaced. *)
Definition with_state (active : option string) (modal : bool) (h : Hooks) : Hooks :=
  {| useActionData := useActionData h;
     useLoaderData := useLoaderData h;
     transition_submission := transition_submission h;
     activeButton := active;
     showDeleteModal := modal |}.

Definition view_of (v : Variant) : Hooks → Jsx :=
  match v with
  | Unauthenticated => UnauthView.EditPostSlug
  | Authenticated => AuthedView.EditPostSlug
  end.

(** Pages used as examples: the post [Memory.hello] loaded, new text typed
    into the fields; nothing in flight and the dialog closed ([fresh]),
    the dialog open ([asking]), a submission in flight ([busy]). *)
Module Sample.

Definition loaded : Hooks :=
  {| useActionData := None;
     useLoaderData := LoaderData.mk Memory.hello;
     transition_submission := None;
     activeButton := Some "";
     showDeleteModal := false |}.

Definition typed (r : Ref) : string :=
  match r with
  | titleRef => "Hello again"
  | slugRef => "hello-again"
  | markdownRef => "# Hello again"
  end.

Definition fresh : Page := {| hooks := loaded; field := typed |}.

Definition asking : Page :=
  {| hooks := with_state (Some "") true loaded; field := typed |}.

Definition busy : Page :=
  {| hooks := submitting Memory.update_form (with_state (Some "update") true loaded);
     field := typed |}.


(** The hook values after the action answered [Memory.blank_title_form]
    with its errors object. *)
Definition rejected : Hooks :=
  {| useActionData := Some (ActionData.mk (Some "Title is required") None None);
     useLoaderData := LoaderData.mk Memory.hello;
     transition_submission := None;
     activeButton := Some "";
     showDeleteModal := false |}.

End Sample.

(** The two submit buttons as the user sees them: label and disabled
    flag of the Update button, then of the Delete button. *)
Definition buttons (root : Jsx) : list (option string * option bool) :=
  [(button_label root None, button_disabled root None);
   (button_label root (Some "_action"), button_disabled root (Some "_action"))].

(** The label of the dialog's confirm button, when the dialog is shown. *)
Definition dialog_confirm_label (root : Jsx) : option string :=
  dialog root ≫= string_prop "confirmButtonLabel".

(** An environment whose collaborators fail: the store rejects every call,
    and in [unreadable] the request body cannot be read either.  The
    session gate is the one of [Memory]. *)
Module Faulty.

Inductive World := read_only | unreadable.

Definition perform (c : Call) (w : World) : (Thrown + Reply c) * World :=
  match c as c0 return (Thrown + Reply c0) * World with
  | RequireUserId request =>
      match request_cookie request with
      | Some userId => (inr userId, w)
      | None => (inl (ThrownRedirect "/login"), w)
      end
  | RequestFormData request =>
      match w with
      | read_only => (inr (request_body request), w)
      | unreadable => (inl (ThrownError "malformed body"), w)
      end
  | GetPost _ => (inl (ThrownError "database unavailable"), w)
  | UpdatePost _ _ => (inl (ThrownError "database unavailable"), w)
  | DeletePost _ => (inl (ThrownError "database unavailable"), w)
  end.

End Faulty.

(** More example submissions: a file uploaded as title; the fields of
    [Memory.update_form] in another order, with repeated and extra
    entries. *)
Module MoreForms.

Definition cover : File := {| file_name := "cover.png"; file_size := 2048 |}.

Definition file_title_form : list (string * FormDataEntryValue) :=
  [("initialSlug", FString "my-post"); ("title", FFile cover);
   ("slug", FString "hello-again"); ("markdown", FString "# Hello again")].

Definition shuffled_update_form : list (string * FormDataEntryValue) :=
  [("_action", FString "delete"); ("markdown", FString "# Hello again");
   ("slug", FString "hello-again"); ("note", FString "ignored");
   ("title", FString "Hello again"); ("initialSlug", FString "my-post");
   ("slug", FString "another"); ("_action", FString "save")].

Definition saving_update_form : list (string * FormDataEntryValue) :=
  Memory.update_form ++ [("_action", FString "save")].

End MoreForms.

(** * Properties *)

(** ** Basic facts about the embedding *)

Lemma strict_equals_true v literal :
  strict_equals v literal = true ↔ v = Some (FString literal).
Proof.
  destruct v as [[s|f]|]; simpl; rewrite ?bool_decide_eq_true; split;
    intros H; try discriminate; congruence.
Qed.

Lemma strict_equals_false v literal :
  strict_equals v literal = false ↔ v ≠ Some (FString literal).
Proof.
  rewrite <- strict_equals_true. destruct (strict_equals v literal); split; congruence.
Qed.

Lemma truthy_false v : truthy v = false ↔ v = None ∨ v = Some (FString "").
Proof.
  destruct v as [[s|f]|]; simpl.
  - rewrite negb_false_iff, bool_decide_eq_true. split.
    + intros ->. by right.
    + intros [?|?]; congruence.
  - split; [discriminate | intros [?|?]; discriminate].
  - split; [by left | done].
Qed.

Lemma truthy_true formData name :
  present_nonempty formData name ↔ truthy (FormData_get formData name) = true.
Proof.
  unfold present_nonempty. destruct (FormData_get formData name) as [[s|f]|]; simpl.
  - rewrite negb_true_iff, bool_decide_eq_false. split.
    + intros (v & [= <-] & Hv) ->. by apply Hv.
    + intros Hs. exists (FString s). split; [done | congruence].
  - split; [done | intros _; by exists (FFile f)].
  - split; [by intros (v & ? & _) | done].
Qed.

Lemma truthy_filled s : s ≠ "" → truthy (Some (FString s)) = true.
Proof. intros H. simpl. by rewrite negb_true_iff, bool_decide_eq_false. Qed.

Lemma error_entry_truthy formData name message :
  error_entry formData name message
  = if truthy (FormData_get formData name) then None else Some message.
Proof.
  unfold error_entry. destruct (FormData_get formData name) as [[s|f]|]; simpl; try done.
  destruct s; reflexivity.
Qed.

(** [Object.fromEntries] keeps, for each name, the last entry. *)
Lemma Object_fromEntries_snoc formData k v :
  Object_fromEntries (formData ++ [(k, v)]) = <[k := v]> (Object_fromEntries formData).
Proof. unfold Object_fromEntries. by rewrite foldl_app. Qed.

Lemma Object_fromEntries_lookup formData name :
  Object_fromEntries formData !! name = FormData_get (reverse formData) name.
Proof.
  induction formData as [|[k v] rest IH] using rev_ind; [done|].
  rewrite Object_fromEntries_snoc, reverse_app. simpl.
  rewrite lookup_insert. destruct (decide (k = name)); [done | exact IH].
Qed.

(** ** Stepping through a run *)

Section RunFacts.
Context {W : Type}.
Variable perform : ∀ c : Call, W → (Thrown + Reply c) * W.

Lemma run_replied {R} c (k : Reply c → Prog R) w x w' :
  replies perform w c x w' →
  run perform (Do c k) w = called c (run perform (k x) w').
Proof. unfold replies. intros H. simpl. by rewrite H. Qed.

Lemma run_rejected {R} c (k : Reply c → Prog R) w e w' :
  rejects perform w c e w' →
  run perform (Do c k) w = {| calls := [c]; result := inl e; final := w' |}.
Proof. unfold rejects. intros H. simpl. by rewrite H. Qed.

End RunFacts.

(** Rewrites with what is known about the environment and the form until
    the run is a value. *)
Ltac run_known :=
  repeat (simpl;
          match goal with
          | H : ?p ?c ?w = (_, _) |- context [?p ?c ?w] => rewrite H
          | H : strict_equals ?v ?l = _ |- context [strict_equals ?v ?l] => rewrite H
          | H : FormData_get ?fd ?n = _ |- context [FormData_get ?fd ?n] => rewrite H
          | H : truthy ?v = _ |- context [truthy ?v] => rewrite H
          | H : ?s ≠ "" |- context [bool_decide (?s = "")] =>
              rewrite (bool_decide_eq_false_2 (s = "")) by exact H
          end).

(** Shows that a call is none of an explicit list of other calls. *)
Ltac not_called :=
  let H := fresh "Hin" in
  intros H;
  repeat (apply elem_of_cons in H as [H|H]; [discriminate H|]);
  by apply elem_of_nil in H.

Section Unauthenticated.
Context {W : Type}.
Variable perform : ∀ c : Call, W → (Thrown + Reply c) * W.

Lemma persistence_called {R} c (o : Outcome W R) :
  persistence (called c o)
  = if is_persistence c then c :: persistence o else persistence o.
Proof. unfold persistence. simpl. by destruct (is_persistence c). Qed.

Lemma run_authed_action request w userId w0 :
  replies perform w (RequireUserId request) userId w0 →
  run perform (Authed.action request) w
  = called (RequireUserId request) (run perform (Unauth.action request) w0).
Proof. unfold replies. intros H. simpl. rewrite H. reflexivity. Qed.

Lemma unauth_delete_persistence request formData w w1 :
  delete_submission formData →
  replies perform w (RequestFormData request) formData w1 →
  persistence (run perform (Unauth.action request) w)
  = [DeletePost (FormData_get formData "slug")].
Proof.
  unfold replies. intros Hd%strict_equals_true Hf. run_known.
  destruct (perform (DeletePost (FormData_get formData "slug")) w1)
    as [[e|[]] w2] eqn:E; run_known; reflexivity.
Qed.

Lemma unauth_delete_redirect request formData w w1 w2 :
  delete_submission formData →
  replies perform w (RequestFormData request) formData w1 →
  replies perform w1 (DeletePost (FormData_get formData "slug")) tt w2 →
  run perform (Unauth.action request) w
  = {| calls := [RequestFormData request; DeletePost (FormData_get formData "slug")];
       result := inr (redirect "/posts/admin");
       final := w2 |}.
Proof.
  unfold replies. intros Hd%strict_equals_true Hf Hdel. run_known. reflexivity.
Qed.

Lemma unauth_invalid request formData w w1 :
  update_submission formData →
  replies perform w (RequestFormData request) formData w1 →
  empty_or_absent formData "title" ∨ empty_or_absent formData "slug"
    ∨ empty_or_absent formData "markdown" →
  run perform (Unauth.action request) w
  = {| calls := [RequestFormData request];
       result := inr (json
         {| ActionData.title := error_entry formData "title" "Title is required";
            ActionData.slug := error_entry formData "slug" "Slug is required";
            ActionData.markdown := error_entry formData "markdown" "Markdown is required" |});
       final := w1 |}.
Proof.
  unfold replies, empty_or_absent. intros Hd%strict_equals_false Hf Hempty.
  rewrite !error_entry_truthy, <- !truthy_false in *.
  run_known.
  destruct (truthy (FormData_get formData "title")),
    (truthy (FormData_get formData "slug")),
    (truthy (FormData_get formData "markdown")); try reflexivity.
  destruct Hempty as [?|[?|?]]; discriminate.
Qed.

Lemma unauth_valid_redirect request formData w w1 w2 initialSlug title slug markdown :
  update_submission formData →
  replies perform w (RequestFormData request) formData w1 →
  FormData_get formData "initialSlug" = Some (FString initialSlug) →
  filled formData "title" title →
  filled formData "slug" slug →
  filled formData "markdown" markdown →
  replies perform w1 (UpdatePost initialSlug (Post.mk slug title markdown)) tt w2 →
  run perform (Unauth.action request) w
  = {| calls := [RequestFormData request;
                 UpdatePost initialSlug (Post.mk slug title markdown)];
       result := inr (redirect "/posts/admin");
       final := w2 |}.
Proof.
  unfold replies. intros Hd%strict_equals_false Hf Hi [Ht Ht'] [Hs Hs'] [Hm Hm'] Hup.
  run_known. reflexivity.
Qed.

Lemma unauth_valid_persistence request formData w w1 initialSlug title slug markdown :
  update_submission formData →
  replies perform w (RequestFormData request) formData w1 →
  FormData_get formData "initialSlug" = Some (FString initialSlug) →
  filled formData "title" title →
  filled formData "slug" slug →
  filled formData "markdown" markdown →
  persistence (run perform (Unauth.action request) w)
  = [UpdatePost initialSlug (Post.mk slug title markdown)].
Proof.
  unfold replies. intros Hd%strict_equals_false Hf Hi [Ht Ht'] [Hs Hs'] [Hm Hm'].
  run_known.
  destruct (perform (UpdatePost initialSlug (Post.mk slug title markdown)) w1)
    as [[e|[]] w2] eqn:E; run_known; reflexivity.
Qed.

Lemma unauth_initialSlug_invariant request formData w w1 :
  update_submission formData →
  replies perform w (RequestFormData request) formData w1 →
  present_nonempty formData "title" →
  present_nonempty formData "slug" →
  present_nonempty formData "markdown" →
  typeof_string (FormData_get formData "initialSlug") = None →
  run perform (Unauth.action request) w
  = {| calls := [RequestFormData request];
       result := inl (InvariantFailed "initial slug must be a string");
       final := w1 |}.
Proof.
  unfold replies. intros Hd%strict_equals_false Hf Ht%truthy_true Hs%truthy_true
    Hm%truthy_true Hi.
  run_known. unfold invariant. rewrite Hi. reflexivity.
Qed.

Lemma unauth_update_outcomes request formData w w1 :
  update_submission formData →
  replies perform w (RequestFormData request) formData w1 →
  let o := run perform (Unauth.action request) w in
  (∃ errors,
      o = {| calls := [RequestFormData request];
             result := inr (json errors);
             final := w1 |})
  ∨ (∃ message,
      o = {| calls := [RequestFormData request];
             result := inl (InvariantFailed message);
             final := w1 |})
  ∨ (∃ initialSlug fields,
      calls o = [RequestFormData request; UpdatePost initialSlug fields]).
Proof.
  unfold replies. intros Hd%strict_equals_false Hf. run_known.
  destruct (FormData_get formData "title") as [[t|?]|];
    destruct (FormData_get formData "slug") as [[s|?]|];
    destruct (FormData_get formData "markdown") as [[m|?]|];
    simpl; repeat case_bool_decide; simpl; eauto;
    destruct (FormData_get formData "initialSlug") as [[i|?]|]; simpl; eauto.
  all: right; right; exists i; eexists.
  all: destruct (perform (UpdatePost i (Post.mk s t m)) w1) as [[e|[]] w2] eqn:E.
  all: run_known; reflexivity.
Qed.

Lemma unauth_loader_eq params : Authed.loader params = Unauth.loader params.
Proof. reflexivity. Qed.

Lemma unauth_loader_missing params w :
  slug_missing params →
  run perform (Unauth.loader params) w
  = {| calls := [];
       result := inl (InvariantFailed "params.slug is required");
       final := w |}.
Proof. intros [H|H]; unfold Unauth.loader; rewrite H; reflexivity. Qed.

Lemma unauth_loader_not_found params slug w w' :
  slug_present params slug →
  replies perform w (GetPost slug) None w' →
  run perform (Unauth.loader params) w
  = {| calls := [GetPost slug];
       result := inl (InvariantFailed ("Post not found: " +:+ slug));
       final := w' |}.
Proof.
  unfold replies. intros [H Hne] Hg.
  unfold Unauth.loader, invariant, narrow_truthy_string.
  rewrite H. run_known. reflexivity.
Qed.

Lemma unauth_loader_found params slug post w w' :
  slug_present params slug →
  replies perform w (GetPost slug) (Some post) w' →
  run perform (Unauth.loader params) w
  = {| calls := [GetPost slug];
       result := inr (json (LoaderData.mk post));
       final := w' |}.
Proof.
  unfold replies. intros [H Hne] Hg.
  unfold Unauth.loader, invariant, narrow_truthy_string.
  rewrite H. run_known. reflexivity.
Qed.

End Unauthenticated.

(** ** Both variants *)

Section Claims.
Context {W : Type}.
Variable perform : ∀ c : Call, W → (Thrown + Reply c) * W.

(** Splits a statement about [action_of v] into the two variants and
    brings the authenticated one back to the unauthenticated one after
    its session check. *)
Ltac by_variant v Hr :=
  destruct v; cbn [action_of prelude receives app] in Hr |- *;
  [ | let u := fresh "userId" in
      let w0 := fresh "w0" in
      let Hu := fresh "Hu" in
      destruct Hr as (u & w0 & Hu & Hr);
      rewrite (run_authed_action perform _ _ _ _ Hu), ?persistence_called;
      cbn [is_persistence] ].

Lemma at_most_one_unauth request w :
  let o := run perform (Unauth.action request) w in
  persistence o = []
  ∨ (∃ slug, persistence o = [DeletePost slug])
  ∨ (∃ initialSlug fields, persistence o = [UpdatePost initialSlug fields]).
Proof.
  intros o. subst o.
  destruct (perform (RequestFormData request) w) as [[e|formData] w1] eqn:Hf.
  { left. run_known. reflexivity. }
  destruct (strict_equals (_action formData) "delete") eqn:Hd.
  - right; left. eexists.
    by apply unauth_delete_persistence with (w1 := w1); [apply strict_equals_true|].
  - apply strict_equals_false in Hd.
    destruct (unauth_update_outcomes perform request formData w w1 Hd Hf)
      as [(errors & ->)|[(message & ->)|(i & f & Hc)]].
    + by left.
    + by left.
    + right; right. exists i, f. unfold persistence. by rewrite Hc.
Qed.

(** C1 (as amended): for every update submission in which [title], [slug]
    and [markdown] are non-empty strings and [initialSlug] is a string,
    the action makes exactly one persistence call, [updatePost] keyed by
    the submitted [initialSlug] and carrying the new title, slug and
    markdown, and once that call resolves it returns a redirect to
    [/posts/admin]. *)
Theorem valid_update_submission_updates_once
    v request formData w w1 initialSlug title slug markdown :
  update_submission formData →
  receives perform v w request formData w1 →
  FormData_get formData "initialSlug" = Some (FString initialSlug) →
  filled formData "title" title →
  filled formData "slug" slug →
  filled formData "markdown" markdown →
  persistence (run perform (action_of v request) w)
  = [UpdatePost initialSlug (Post.mk slug title markdown)]
  ∧ ∀ w2,
      replies perform w1 (UpdatePost initialSlug (Post.mk slug title markdown)) tt w2 →
      run perform (action_of v request) w
      = {| calls := prelude v request
                    ++ [UpdatePost initialSlug (Post.mk slug title markdown)];
           result := inr (redirect "/posts/admin");
           final := w2 |}.
Proof.
  intros Hd Hr Hi Ht Hs Hm. by_variant v Hr.
  all: split;
    [ by eapply unauth_valid_persistence
    | intros w2 Hup;
      by rewrite (unauth_valid_redirect perform _ _ _ _ _ _ _ _ _ Hd Hr Hi Ht Hs Hm Hup) ].
Qed.

(** C2: for every update submission in which any of [title], [slug],
    [markdown] is empty or absent, the action makes no persistence call
    and returns the errors object holding the field's message for each
    empty or absent field and [null] for each other field. *)
Theorem invalid_update_submission_reports_errors v request formData w w1 :
  update_submission formData →
  receives perform v w request formData w1 →
  empty_or_absent formData "title" ∨ empty_or_absent formData "slug"
    ∨ empty_or_absent formData "markdown" →
  run perform (action_of v request) w
  = {| calls := prelude v request;
       result := inr (json
         {| ActionData.title := error_entry formData "title" "Title is required";
            ActionData.slug := error_entry formData "slug" "Slug is required";
            ActionData.markdown := error_entry formData "markdown" "Markdown is required" |});
       final := w1 |}
  ∧ persistence (run perform (action_of v request) w) = [].
Proof.
  intros Hd Hr Hempty. by_variant v Hr.
  all: by rewrite (unauth_invalid perform _ _ _ _ Hd Hr Hempty).
Qed.

(** C3: for every delete submission, whatever its other fields, the
    action makes exactly one persistence call, [deletePost] keyed by the
    submitted [slug] value, and once that call resolves it returns a
    redirect to [/posts/admin]. *)
Theorem delete_submission_deletes_once v request formData w w1 :
  delete_submission formData →
  receives perform v w request formData w1 →
  persistence (run perform (action_of v request) w)
  = [DeletePost (FormData_get formData "slug")]
  ∧ ∀ w2,
      replies perform w1 (DeletePost (FormData_get formData "slug")) tt w2 →
      run perform (action_of v request) w
      = {| calls := prelude v request ++ [DeletePost (FormData_get formData "slug")];
           result := inr (redirect "/posts/admin");
           final := w2 |}.
Proof.
  intros Hd Hr. by_variant v Hr.
  all: split;
    [ by eapply unauth_delete_persistence
    | intros w2 Hdel;
      by rewrite (unauth_delete_redirect perform _ _ _ _ _ Hd Hr Hdel) ].
Qed.

(** C4 (as amended): every request handled by the action makes at most
    one persistence call: none, or one [deletePost] call, or one
    [updatePost] call, never both. *)
Theorem at_most_one_persistence_call v request w :
  persistence (run perform (action_of v request) w) = []
  ∨ (∃ slug,
      persistence (run perform (action_of v request) w) = [DeletePost slug])
  ∨ (∃ initialSlug fields,
      persistence (run perform (action_of v request) w)
      = [UpdatePost initialSlug fields]).
Proof.
  destruct v; cbn [action_of]; [apply at_most_one_unauth|].
  destruct (perform (RequireUserId request) w) as [[e|userId] w0] eqn:Hu.
  - left. run_known. reflexivity.
  - rewrite (run_authed_action perform _ _ _ _ Hu), persistence_called.
    cbn [is_persistence]. apply at_most_one_unauth.
Qed.

(** C5: the loader fails fast when the route's slug parameter is missing,
    without fetching anything; for a present slug for which [getPost]
    finds no post it raises the not-found failure; for a present slug
    for which [getPost] finds a post it returns that post as response
    data.  So, once [getPost] has answered, it raises an error exactly
    when the slug is missing or the post is not found. *)
Theorem loader_fails_exactly_on_missing_slug_or_post v params w :
  (slug_missing params →
     run perform (loader_of v params) w
     = {| calls := [];
          result := inl (InvariantFailed "params.slug is required");
          final := w |})
  ∧ (∀ slug w',
       slug_present params slug →
       replies perform w (GetPost slug) None w' →
       run perform (loader_of v params) w
       = {| calls := [GetPost slug];
            result := inl (InvariantFailed ("Post not found: " +:+ slug));
            final := w' |})
  ∧ (∀ slug post w',
       slug_present params slug →
       replies perform w (GetPost slug) (Some post) w' →
       run perform (loader_of v params) w
       = {| calls := [GetPost slug];
            result := inr (json (LoaderData.mk post));
            final := w' |})
  ∧ (∀ slug found w',
       params !! "slug" = Some slug →
       replies perform w (GetPost slug) found w' →
       ((∃ e, result (run perform (loader_of v params) w) = inl e)
        ↔ (slug_missing params ∨ found = None))).
Proof.
  assert (loader_of v params = Unauth.loader params) as -> by by destruct v.
  split; [apply unauth_loader_missing|].
  split; [intros slug w'; apply unauth_loader_not_found|].
  split; [intros slug post w'; apply unauth_loader_found|].
  intros slug found w' Hp Hg. unfold slug_missing. rewrite Hp.
  destruct (decide (slug = "")) as [->|Hne].
  - rewrite unauth_loader_missing by (right; exact Hp). simpl. split; eauto.
  - destruct found as [post|].
    + rewrite (unauth_loader_found perform params slug post w w') by done. simpl.
      split; [by intros [e He] | intros [[?|?]|?]; congruence].
    + rewrite (unauth_loader_not_found perform params slug w w') by done. simpl.
      split; eauto.
Qed.

(** C6: given the same request and a session check that succeeds, the
    authenticated action makes the session call and then behaves as the
    unauthenticated action: the same persistence calls, the same
    response or failure, the same remaining calls and the same final
    environment. *)
Theorem authenticated_action_matches_unauthenticated request w userId w0 :
  replies perform w (RequireUserId request) userId w0 →
  persistence (run perform (Authed.action request) w)
  = persistence (run perform (Unauth.action request) w0)
  ∧ result (run perform (Authed.action request) w)
    = result (run perform (Unauth.action request) w0)
  ∧ calls (run perform (Authed.action request) w)
    = RequireUserId request :: calls (run perform (Unauth.action request) w0)
  ∧ final (run perform (Authed.action request) w)
    = final (run perform (Unauth.action request) w0).
Proof.
  intros Hu. rewrite (run_authed_action perform _ _ _ _ Hu), persistence_called.
  by cbn [is_persistence called calls result final].
Qed.

(** C7: in the authenticated variant, when [requireUserId] fails the
    action ends with that failure after this one call: the form body is
    not read, no response of the action (redirect or errors object) is
    produced, and neither [deletePost] nor [updatePost] is called. *)
Theorem failed_session_check_stops_the_action request w e w' :
  rejects perform w (RequireUserId request) e w' →
  run perform (Authed.action request) w
  = {| calls := [RequireUserId request]; result := inl e; final := w' |}
  ∧ (RequestFormData request ∉ calls (run perform (Authed.action request) w))
  ∧ persistence (run perform (Authed.action request) w) = [].
Proof.
  unfold rejects. intros Hu.
  assert (run perform (Authed.action request) w
          = {| calls := [RequireUserId request]; result := inl e; final := w' |})
    as -> by (run_known; reflexivity).
  split; [done|]. split; [|done].
  simpl. not_called.
Qed.

(** C8 (as amended): for every update submission in which [title],
    [slug] and [markdown] are present and non-empty but [initialSlug]
    is absent or is not a string, the action fails with the invariant
    ["initial slug must be a string"] before calling [updatePost], and
    makes no persistence call. *)
Theorem update_without_initialSlug_fails_invariant v request formData w w1 :
  update_submission formData →
  receives perform v w request formData w1 →
  present_nonempty formData "title" →
  present_nonempty formData "slug" →
  present_nonempty formData "markdown" →
  FormData_get formData "initialSlug" = None
    ∨ (∃ f, FormData_get formData "initialSlug" = Some (FFile f)) →
  run perform (action_of v request) w
  = {| calls := prelude v request;
       result := inl (InvariantFailed "initial slug must be a string");
       final := w1 |}
  ∧ persistence (run perform (action_of v request) w) = [].
Proof.
  intros Hd Hr Ht Hs Hm Hi.
  assert (typeof_string (FormData_get formData "initialSlug") = None) as Hi'.
  { by destruct Hi as [->|[f ->]]. }
  by_variant v Hr.
  all: by rewrite (unauth_initialSlug_invariant perform _ _ _ _ Hd Hr Ht Hs Hm Hi').
Qed.

(** C9: the branch is chosen by exact string equality.  For every
    submission whose [_action] is anything but the string ["delete"]
    (another spelling, a file, or no such field) the action never calls
    [deletePost]; it validates and then either returns the errors
    object, or fails an invariant, or calls [updatePost]. *)
Theorem other_actions_take_update_path v request formData w w1 :
  update_submission formData →
  receives perform v w request formData w1 →
  (∀ slug, DeletePost slug ∉ calls (run perform (action_of v request) w))
  ∧ ((∃ errors,
        run perform (action_of v request) w
        = {| calls := prelude v request;
             result := inr (json errors);
             final := w1 |})
     ∨ (∃ message,
        run perform (action_of v request) w
        = {| calls := prelude v request;
             result := inl (InvariantFailed message);
             final := w1 |})
     ∨ (∃ initialSlug fields,
        calls (run perform (action_of v request) w)
        = (prelude v request ++ [UpdatePost initialSlug fields])%list)).
Proof.
  intros Hd Hr. by_variant v Hr.
  all: destruct (unauth_update_outcomes perform request formData _ w1 Hd Hr)
      as [(errors & ->)|[(message & ->)|(i & f & Hc)]];
    cbn [called calls result final]; rewrite ?Hc.
  all: split; [intros slug; not_called | eauto 6].
Qed.

(** C10: for every delete submission without a [slug] field the action
    validates nothing and reports no error: it calls [deletePost] exactly
    once, with the missing value [null], and once that call resolves it
    returns a redirect to [/posts/admin]. *)
Theorem delete_without_slug_passes_null v request formData w w1 :
  delete_submission formData →
  FormData_get formData "slug" = None →
  receives perform v w request formData w1 →
  persistence (run perform (action_of v request) w) = [DeletePost None]
  ∧ ∀ w2,
      replies perform w1 (DeletePost None) tt w2 →
      run perform (action_of v request) w
      = {| calls := prelude v request ++ [DeletePost None];
           result := inr (redirect "/posts/admin");
           final := w2 |}.
Proof.
  intros Hd Hs Hr. by_variant v Hr.
  all: split;
    [ rewrite <- Hs; by eapply unauth_delete_persistence
    | intros w2 Hdel; rewrite <- Hs in Hdel |- *;
      by rewrite (unauth_delete_redirect perform _ _ _ _ _ Hd Hr Hdel) ].
Qed.

End Claims.

(** ** The properties at work on the in-memory environment *)

Lemma near_miss_actions_are_update_submissions :
  update_submission [("_action", FString "Delete")]
  ∧ update_submission [("_action", FString "DELETE")]
  ∧ update_submission [("slug", FString "my-post")]
  ∧ update_submission [("_action", FString "delete"); ("_action", FString "keep")].
Proof. repeat split; by vm_compute. Qed.

(** C1, as first stated, fails: an update submission whose [title], [slug]
    and [markdown] are filled in but which carries no [initialSlug] makes
    no [updatePost] call and returns no redirect; the action fails with an
    invariant. *)
Lemma update_without_initialSlug_makes_no_update :
  update_submission Memory.no_initialSlug_form
  ∧ present_nonempty Memory.no_initialSlug_form "title"
  ∧ present_nonempty Memory.no_initialSlug_form "slug"
  ∧ present_nonempty Memory.no_initialSlug_form "markdown"
  ∧ run Memory.perform (Unauth.action (Memory.anonymous Memory.no_initialSlug_form))
      Memory.store
    = {| calls := [RequestFormData (Memory.anonymous Memory.no_initialSlug_form)];
         result := inl (InvariantFailed "initial slug must be a string");
         final := Memory.store |}
  ∧ persistence
      (run Memory.perform (Unauth.action (Memory.anonymous Memory.no_initialSlug_form))
         Memory.store)
    = [].
Proof.
  split; [by vm_compute|].
  do 3 (split; [eexists; split; [reflexivity | discriminate]|]).
  split; by vm_compute.
Qed.

Lemma valid_update_submission_updates_once_witness :
  update_submission Memory.update_form
  ∧ receives Memory.perform Authenticated Memory.store
      (Memory.signed_in Memory.update_form) Memory.update_form Memory.store
  ∧ FormData_get Memory.update_form "initialSlug" = Some (FString "my-post")
  ∧ filled Memory.update_form "title" "Hello again"
  ∧ filled Memory.update_form "slug" "hello-again"
  ∧ filled Memory.update_form "markdown" "# Hello again"
  ∧ replies Memory.perform Memory.store
      (UpdatePost "my-post" Memory.hello_again) tt Memory.renamed
  ∧ persistence
      (run Memory.perform (Authed.action (Memory.signed_in Memory.update_form))
         Memory.store)
    = [UpdatePost "my-post" Memory.hello_again]
  ∧ run Memory.perform (Authed.action (Memory.signed_in Memory.update_form))
      Memory.store
    = {| calls := [RequireUserId (Memory.signed_in Memory.update_form);
                   RequestFormData (Memory.signed_in Memory.update_form);
                   UpdatePost "my-post" Memory.hello_again];
         result := inr (redirect "/posts/admin");
         final := Memory.renamed |}.
Proof.
  assert (update_submission Memory.update_form) as Hd by (by vm_compute).
  assert (receives Memory.perform Authenticated Memory.store
            (Memory.signed_in Memory.update_form) Memory.update_form Memory.store)
    as Hr by (exists "user-1", Memory.store; split; reflexivity).
  assert (FormData_get Memory.update_form "initialSlug" = Some (FString "my-post"))
    as Hi by reflexivity.
  assert (filled Memory.update_form "title" "Hello again")
    as Ht by (split; [reflexivity | discriminate]).
  assert (filled Memory.update_form "slug" "hello-again")
    as Hs by (split; [reflexivity | discriminate]).
  assert (filled Memory.update_form "markdown" "# Hello again")
    as Hm by (split; [reflexivity | discriminate]).
  assert (replies Memory.perform Memory.store
            (UpdatePost "my-post" Memory.hello_again) tt Memory.renamed)
    as Hup by reflexivity.
  destruct (valid_update_submission_updates_once Memory.perform Authenticated
              _ _ _ _ _ _ _ _ Hd Hr Hi Ht Hs Hm) as [Hp Hrun].
  repeat (split; [assumption|]). exact (Hrun _ Hup).
Defined.

(** The scenario of C2: [{title: "", slug: "x", markdown: "y"}]. *)
Lemma invalid_update_submission_reports_errors_witness :
  update_submission Memory.blank_title_form
  ∧ receives Memory.perform Unauthenticated Memory.store
      (Memory.anonymous Memory.blank_title_form) Memory.blank_title_form Memory.store
  ∧ (empty_or_absent Memory.blank_title_form "title"
     ∨ empty_or_absent Memory.blank_title_form "slug"
     ∨ empty_or_absent Memory.blank_title_form "markdown")
  ∧ run Memory.perform (Unauth.action (Memory.anonymous Memory.blank_title_form))
      Memory.store
    = {| calls := [RequestFormData (Memory.anonymous Memory.blank_title_form)];
         result := inr (json (ActionData.mk (Some "Title is required") None None));
         final := Memory.store |}
  ∧ persistence
      (run Memory.perform (Unauth.action (Memory.anonymous Memory.blank_title_form))
         Memory.store)
    = [].
Proof.
  assert (update_submission Memory.blank_title_form) as Hd by (by vm_compute).
  assert (receives Memory.perform Unauthenticated Memory.store
            (Memory.anonymous Memory.blank_title_form) Memory.blank_title_form
            Memory.store) as Hr by reflexivity.
  assert (empty_or_absent Memory.blank_title_form "title"
          ∨ empty_or_absent Memory.blank_title_form "slug"
          ∨ empty_or_absent Memory.blank_title_form "markdown")
    as He by (left; right; reflexivity).
  repeat (split; [assumption|]).
  exact (invalid_update_submission_reports_errors Memory.perform Unauthenticated
           _ _ _ _ Hd Hr He).
Defined.

(** The scenario of C3: [{_action: "delete", slug: "my-post"}]. *)
Lemma delete_submission_deletes_once_witness :
  delete_submission Memory.delete_form
  ∧ receives Memory.perform Unauthenticated Memory.store
      (Memory.anonymous Memory.delete_form) Memory.delete_form Memory.store
  ∧ replies Memory.perform Memory.store (DeletePost (Some (FString "my-post"))) tt ∅
  ∧ persistence
      (run Memory.perform (Unauth.action (Memory.anonymous Memory.delete_form))
         Memory.store)
    = [DeletePost (Some (FString "my-post"))]
  ∧ run Memory.perform (Unauth.action (Memory.anonymous Memory.delete_form))
      Memory.store
    = {| calls := [RequestFormData (Memory.anonymous Memory.delete_form);
                   DeletePost (Some (FString "my-post"))];
         result := inr (redirect "/posts/admin");
         final := ∅ |}.
Proof.
  assert (delete_submission Memory.delete_form) as Hd by (by vm_compute).
  assert (receives Memory.perform Unauthenticated Memory.store
            (Memory.anonymous Memory.delete_form) Memory.delete_form Memory.store)
    as Hr by reflexivity.
  assert (replies Memory.perform Memory.store
            (DeletePost (Some (FString "my-post"))) tt ∅)
    as Hdel by (by vm_compute).
  destruct (delete_submission_deletes_once Memory.perform Unauthenticated
              _ _ _ _ Hd Hr) as [Hp Hrun].
  repeat (split; [assumption|]). exact (Hrun _ Hdel).
Defined.

(** C4, as first stated, fails: the scenario of C2 is a request that makes
    no persistence call at all. *)
Lemma invalid_update_submission_makes_no_persistence_call :
  persistence
    (run Memory.perform (Unauth.action (Memory.anonymous Memory.blank_title_form))
       Memory.store)
  = []
  ∧ length
      (persistence
         (run Memory.perform (Unauth.action (Memory.anonymous Memory.blank_title_form))
            Memory.store))
    ≠ 1.
Proof. split; by vm_compute. Qed.

Lemma loader_fails_exactly_on_missing_slug_or_post_witness :
  (slug_missing ∅
   ∧ run Memory.perform (Unauth.loader ∅) Memory.store
     = {| calls := [];
          result := inl (InvariantFailed "params.slug is required");
          final := Memory.store |})
  ∧ (slug_present Memory.params_nope "nope"
     ∧ replies Memory.perform Memory.store (GetPost "nope") None Memory.store
     ∧ run Memory.perform (Authed.loader Memory.params_nope) Memory.store
       = {| calls := [GetPost "nope"];
            result := inl (InvariantFailed "Post not found: nope");
            final := Memory.store |})
  ∧ (slug_present Memory.params_my_post "my-post"
     ∧ replies Memory.perform Memory.store (GetPost "my-post") (Some Memory.hello)
         Memory.store
     ∧ run Memory.perform (Authed.loader Memory.params_my_post) Memory.store
       = {| calls := [GetPost "my-post"];
            result := inr (json (LoaderData.mk Memory.hello));
            final := Memory.store |})
  ∧ (Memory.params_nope !! "slug" = Some "nope"
     ∧ ((∃ e, result (run Memory.perform (Authed.loader Memory.params_nope)
                        Memory.store) = inl e)
        ↔ (slug_missing Memory.params_nope ∨ @None Post.t = None))).
Proof.
  assert (slug_missing ∅) as H0 by (left; reflexivity).
  assert (slug_present Memory.params_nope "nope")
    as H1 by (split; [reflexivity | discriminate]).
  assert (replies Memory.perform Memory.store (GetPost "nope") None Memory.store)
    as G1 by reflexivity.
  assert (slug_present Memory.params_my_post "my-post")
    as H2 by (split; [reflexivity | discriminate]).
  assert (replies Memory.perform Memory.store (GetPost "my-post") (Some Memory.hello)
            Memory.store) as G2 by reflexivity.
  assert (Memory.params_nope !! "slug" = Some "nope") as H3 by reflexivity.
  split; [split; [exact H0|]|].
  { exact (proj1 (loader_fails_exactly_on_missing_slug_or_post Memory.perform
                    Unauthenticated ∅ Memory.store) H0). }
  split; [split; [exact H1 | split; [exact G1|]]|].
  { exact (proj1 (proj2 (loader_fails_exactly_on_missing_slug_or_post Memory.perform
                           Authenticated Memory.params_nope Memory.store))
             "nope" Memory.store H1 G1). }
  split; [split; [exact H2 | split; [exact G2|]]|].
  { exact (proj1 (proj2 (proj2 (loader_fails_exactly_on_missing_slug_or_post
                                  Memory.perform Authenticated Memory.params_my_post
                                  Memory.store)))
             "my-post" Memory.hello Memory.store H2 G2). }
  split; [exact H3|].
  exact (proj2 (proj2 (proj2 (loader_fails_exactly_on_missing_slug_or_post
                                Memory.perform Authenticated Memory.params_nope
                                Memory.store)))
           "nope" None Memory.store H3 G1).
Defined.

Lemma authenticated_action_matches_unauthenticated_witness :
  replies Memory.perform Memory.store
    (RequireUserId (Memory.signed_in Memory.update_form)) "user-1" Memory.store
  ∧ persistence
      (run Memory.perform (Authed.action (Memory.signed_in Memory.update_form))
         Memory.store)
    = persistence
        (run Memory.perform (Unauth.action (Memory.signed_in Memory.update_form))
           Memory.store)
  ∧ result
      (run Memory.perform (Authed.action (Memory.signed_in Memory.update_form))
         Memory.store)
    = result
        (run Memory.perform (Unauth.action (Memory.signed_in Memory.update_form))
           Memory.store)
  ∧ calls
      (run Memory.perform (Authed.action (Memory.signed_in Memory.update_form))
         Memory.store)
    = RequireUserId (Memory.signed_in Memory.update_form)
      :: calls
           (run Memory.perform (Unauth.action (Memory.signed_in Memory.update_form))
              Memory.store)
  ∧ final
      (run Memory.perform (Authed.action (Memory.signed_in Memory.update_form))
         Memory.store)
    = final
        (run Memory.perform (Unauth.action (Memory.signed_in Memory.update_form))
           Memory.store).
Proof.
  assert (replies Memory.perform Memory.store
            (RequireUserId (Memory.signed_in Memory.update_form)) "user-1"
            Memory.store) as Hu by reflexivity.
  split; [exact Hu|].
  exact (authenticated_action_matches_unauthenticated Memory.perform _ _ _ _ Hu).
Defined.

Lemma failed_session_check_stops_the_action_witness :
  rejects Memory.perform Memory.store
    (RequireUserId (Memory.anonymous Memory.delete_form)) (ThrownRedirect "/login")
    Memory.store
  ∧ run Memory.perform (Authed.action (Memory.anonymous Memory.delete_form))
      Memory.store
    = {| calls := [RequireUserId (Memory.anonymous Memory.delete_form)];
         result := inl (ThrownRedirect "/login");
         final := Memory.store |}
  ∧ (RequestFormData (Memory.anonymous Memory.delete_form)
     ∉ calls (run Memory.perform
                (Authed.action (Memory.anonymous Memory.delete_form)) Memory.store))
  ∧ persistence
      (run Memory.perform (Authed.action (Memory.anonymous Memory.delete_form))
         Memory.store)
    = [].
Proof.
  assert (rejects Memory.perform Memory.store
            (RequireUserId (Memory.anonymous Memory.delete_form))
            (ThrownRedirect "/login") Memory.store) as Hu by reflexivity.
  split; [exact Hu|].
  exact (failed_session_check_stops_the_action Memory.perform _ _ _ _ Hu).
Defined.

(** C8, as first stated, fails: a delete submission may also carry a
    filled-in [title], [slug] and [markdown] and no [initialSlug]; the
    action then raises no error and does make a persistence call. *)
Lemma delete_submission_ignores_initialSlug :
  present_nonempty Memory.delete_with_fields_form "title"
  ∧ present_nonempty Memory.delete_with_fields_form "slug"
  ∧ present_nonempty Memory.delete_with_fields_form "markdown"
  ∧ FormData_get Memory.delete_with_fields_form "initialSlug" = None
  ∧ run Memory.perform
      (Unauth.action (Memory.anonymous Memory.delete_with_fields_form)) Memory.store
    = {| calls := [RequestFormData (Memory.anonymous Memory.delete_with_fields_form);
                   DeletePost (Some (FString "hello-again"))];
         result := inr (redirect "/posts/admin");
         final := Memory.store |}
  ∧ persistence
      (run Memory.perform
         (Unauth.action (Memory.anonymous Memory.delete_with_fields_form))
         Memory.store)
    ≠ [].
Proof.
  do 3 (split; [eexists; split; [reflexivity | discriminate]|]).
  split; [reflexivity|]. split; by vm_compute.
Qed.

Lemma update_without_initialSlug_fails_invariant_witness :
  update_submission Memory.no_initialSlug_form
  ∧ receives Memory.perform Authenticated Memory.store
      (Memory.signed_in Memory.no_initialSlug_form) Memory.no_initialSlug_form
      Memory.store
  ∧ present_nonempty Memory.no_initialSlug_form "title"
  ∧ present_nonempty Memory.no_initialSlug_form "slug"
  ∧ present_nonempty Memory.no_initialSlug_form "markdown"
  ∧ (FormData_get Memory.no_initialSlug_form "initialSlug" = None
     ∨ (∃ f, FormData_get Memory.no_initialSlug_form "initialSlug" = Some (FFile f)))
  ∧ run Memory.perform (Authed.action (Memory.signed_in Memory.no_initialSlug_form))
      Memory.store
    = {| calls := [RequireUserId (Memory.signed_in Memory.no_initialSlug_form);
                   RequestFormData (Memory.signed_in Memory.no_initialSlug_form)];
         result := inl (InvariantFailed "initial slug must be a string");
         final := Memory.store |}
  ∧ persistence
      (run Memory.perform (Authed.action (Memory.signed_in Memory.no_initialSlug_form))
         Memory.store)
    = [].
Proof.
  assert (update_submission Memory.no_initialSlug_form) as Hd by (by vm_compute).
  assert (receives Memory.perform Authenticated Memory.store
            (Memory.signed_in Memory.no_initialSlug_form) Memory.no_initialSlug_form
            Memory.store)
    as Hr by (exists "user-1", Memory.store; split; reflexivity).
  assert (present_nonempty Memory.no_initialSlug_form "title")
    as Ht by (eexists; split; [reflexivity | discriminate]).
  assert (present_nonempty Memory.no_initialSlug_form "slug")
    as Hs by (eexists; split; [reflexivity | discriminate]).
  assert (present_nonempty Memory.no_initialSlug_form "markdown")
    as Hm by (eexists; split; [reflexivity | discriminate]).
  assert (FormData_get Memory.no_initialSlug_form "initialSlug" = None
          ∨ (∃ f, FormData_get Memory.no_initialSlug_form "initialSlug"
                  = Some (FFile f)))
    as Hi by (left; reflexivity).
  repeat (split; [assumption|]).
  exact (update_without_initialSlug_fails_invariant Memory.perform Authenticated
           _ _ _ _ Hd Hr Ht Hs Hm Hi).
Defined.

Lemma other_actions_take_update_path_witness :
  update_submission Memory.capital_Delete_form
  ∧ receives Memory.perform Unauthenticated Memory.store
      (Memory.anonymous Memory.capital_Delete_form) Memory.capital_Delete_form
      Memory.store
  ∧ (∀ slug,
       DeletePost slug
       ∉ calls (run Memory.perform
                  (Unauth.action (Memory.anonymous Memory.capital_Delete_form))
                  Memory.store))
  ∧ run Memory.perform (Unauth.action (Memory.anonymous Memory.capital_Delete_form))
      Memory.store
    = {| calls := [RequestFormData (Memory.anonymous Memory.capital_Delete_form)];
         result := inr (json (ActionData.mk (Some "Title is required") None
                                (Some "Markdown is required")));
         final := Memory.store |}.
Proof.
  assert (update_submission Memory.capital_Delete_form) as Hd by (by vm_compute).
  assert (receives Memory.perform Unauthenticated Memory.store
            (Memory.anonymous Memory.capital_Delete_form) Memory.capital_Delete_form
            Memory.store) as Hr by reflexivity.
  repeat (split; [assumption|]).
  split; [|by vm_compute].
  exact (proj1 (other_actions_take_update_path Memory.perform Unauthenticated
                  _ _ _ _ Hd Hr)).
Defined.

Lemma delete_without_slug_passes_null_witness :
  delete_submission Memory.delete_no_slug_form
  ∧ FormData_get Memory.delete_no_slug_form "slug" = None
  ∧ receives Memory.perform Authenticated Memory.store
      (Memory.signed_in Memory.delete_no_slug_form) Memory.delete_no_slug_form
      Memory.store
  ∧ replies Memory.perform Memory.store (DeletePost None) tt Memory.store
  ∧ persistence
      (run Memory.perform (Authed.action (Memory.signed_in Memory.delete_no_slug_form))
         Memory.store)
    = [DeletePost None]
  ∧ run Memory.perform (Authed.action (Memory.signed_in Memory.delete_no_slug_form))
      Memory.store
    = {| calls := [RequireUserId (Memory.signed_in Memory.delete_no_slug_form);
                   RequestFormData (Memory.signed_in Memory.delete_no_slug_form);
                   DeletePost None];
         result := inr (redirect "/posts/admin");
         final := Memory.store |}.
Proof.
  assert (delete_submission Memory.delete_no_slug_form) as Hd by (by vm_compute).
  assert (FormData_get Memory.delete_no_slug_form "slug" = None) as Hs by reflexivity.
  assert (receives Memory.perform Authenticated Memory.store
            (Memory.signed_in Memory.delete_no_slug_form) Memory.delete_no_slug_form
            Memory.store)
    as Hr by (exists "user-1", Memory.store; split; reflexivity).
  assert (replies Memory.perform Memory.store (DeletePost None) tt Memory.store)
    as Hdel by reflexivity.
  destruct (delete_without_slug_passes_null Memory.perform Authenticated
              _ _ _ _ Hd Hs Hr) as [Hp Hrun].
  repeat (split; [assumption|]). exact (Hrun _ Hdel).
Defined.

(** * Further properties of the handlers *)

Section ActionTable.
Context {W : Type}.
Variable perform : ∀ c : Call, W → (Thrown + Reply c) * W.

Lemma unauth_form_rejected request w e w1 :
  rejects perform w (RequestFormData request) e w1 →
  run perform (Unauth.action request) w
  = {| calls := [RequestFormData request]; result := inl e; final := w1 |}.
Proof. unfold rejects. intros Hf. run_known. reflexivity. Qed.

Lemma unauth_delete_rejected request formData w w1 e w2 :
  delete_submission formData →
  replies perform w (RequestFormData request) formData w1 →
  rejects perform w1 (DeletePost (FormData_get formData "slug")) e w2 →
  run perform (Unauth.action request) w
  = {| calls := [RequestFormData request; DeletePost (FormData_get formData "slug")];
       result := inl e;
       final := w2 |}.
Proof.
  unfold replies, rejects. intros Hd%strict_equals_true Hf Hdel. run_known. reflexivity.
Qed.

Lemma unauth_valid_rejected request formData w w1 e w2 initialSlug title slug markdown :
  update_submission formData →
  replies perform w (RequestFormData request) formData w1 →
  FormData_get formData "initialSlug" = Some (FString initialSlug) →
  filled formData "title" title →
  filled formData "slug" slug →
  filled formData "markdown" markdown →
  rejects perform w1 (UpdatePost initialSlug (Post.mk slug title markdown)) e w2 →
  run perform (Unauth.action request) w
  = {| calls := [RequestFormData request;
                 UpdatePost initialSlug (Post.mk slug title markdown)];
       result := inl e;
       final := w2 |}.
Proof.
  unfold replies, rejects.
  intros Hd%strict_equals_false Hf Hi [Ht Ht'] [Hs Hs'] [Hm Hm'] Hup.
  run_known. reflexivity.
Qed.

(** With the three fields truthy, the first of [initialSlug], [title],
    [slug], [markdown] that is not a string decides the invariant that
    fails. *)
Lemma unauth_invariant_failure request formData w w1 :
  update_submission formData →
  replies perform w (RequestFormData request) formData w1 →
  present_nonempty formData "title" →
  present_nonempty formData "slug" →
  present_nonempty formData "markdown" →
  typeof_string (FormData_get formData "initialSlug") = None
    ∨ holds_file formData "title" ∨ holds_file formData "slug"
    ∨ holds_file formData "markdown" →
  run perform (Unauth.action request) w
  = {| calls := [RequestFormData request];
       result := inl (InvariantFailed (first_failed_invariant formData));
       final := w1 |}.
Proof.
  unfold replies, holds_file, first_failed_invariant.
  intros Hd%strict_equals_false Hf Ht%truthy_true Hs%truthy_true Hm%truthy_true Hbad.
  run_known. unfold invariant.
  destruct (FormData_get formData "initialSlug") as [[i|?]|];
    destruct (FormData_get formData "title") as [[t|?]|];
    destruct (FormData_get formData "slug") as [[s|?]|];
    destruct (FormData_get formData "markdown") as [[m|?]|];
    simpl in *; try discriminate; try reflexivity.
  destruct Hbad as [?|[[? ?]|[[? ?]|[? ?]]]]; discriminate.
Qed.

Lemma first_failed_invariant_listed formData :
  first_failed_invariant formData ∈ invariant_messages.
Proof.
  unfold first_failed_invariant, invariant_messages.
  destruct (typeof_string _); [destruct (typeof_string _); [destruct (typeof_string _)|]|];
    set_unfold; tauto.
Qed.

Lemma string_field_cases formData name :
  truthy (FormData_get formData name) = true →
  holds_file formData name ∨ ∃ value, filled formData name value.
Proof.
  unfold holds_file, filled. destruct (FormData_get formData name) as [[s|f]|]; simpl.
  - rewrite negb_true_iff, bool_decide_eq_false. intros Hs. right. by exists s.
  - intros _. left. by exists f.
  - discriminate.
Qed.

Lemma unauth_action_table request w :
  action_row perform request w (run perform (Unauth.action request) w).
Proof.
  destruct (perform (RequestFormData request) w) as [[e|formData] w1] eqn:Hf.
  { rewrite (unauth_form_rejected request w e w1 Hf). by constructor. }
  destruct (strict_equals (_action formData) "delete") eqn:Hd.
  - apply strict_equals_true in Hd.
    destruct (perform (DeletePost (FormData_get formData "slug")) w1)
      as [[e|[]] w2] eqn:Hdel.
    + rewrite (unauth_delete_rejected request formData w w1 e w2 Hd Hf Hdel).
      by eapply row_delete_rejected.
    + rewrite (unauth_delete_redirect perform request formData w w1 w2 Hd Hf Hdel).
      by eapply row_deleted.
  - apply strict_equals_false in Hd.
    destruct (truthy (FormData_get formData "title")) eqn:Ht;
      [destruct (truthy (FormData_get formData "slug")) eqn:Hs;
       [destruct (truthy (FormData_get formData "markdown")) eqn:Hm|]|].
    2-4: rewrite (unauth_invalid perform request formData w w1 Hd Hf)
           by (unfold empty_or_absent; rewrite <- !truthy_false; tauto);
         apply row_invalid;
           [done | done | unfold empty_or_absent; rewrite <- !truthy_false; tauto].
    pose proof Ht as Ht'%truthy_true. pose proof Hs as Hs'%truthy_true.
    pose proof Hm as Hm'%truthy_true.
    destruct (typeof_string (FormData_get formData "initialSlug")) as [i|] eqn:Hi.
    2: { rewrite (unauth_invariant_failure request formData w w1) by auto.
         eapply row_invariant; eauto using first_failed_invariant_listed. }
    assert (FormData_get formData "initialSlug" = Some (FString i)) as Hi'.
    { by destruct (FormData_get formData "initialSlug") as [[?|?]|]; simplify_eq/=. }
    destruct (string_field_cases formData "title" Ht) as [Hft|[t Hft]].
    { rewrite (unauth_invariant_failure request formData w w1) by auto.
      eapply row_invariant; eauto using first_failed_invariant_listed. }
    destruct (string_field_cases formData "slug" Hs) as [Hfs|[s Hfs]].
    { rewrite (unauth_invariant_failure request formData w w1) by auto.
      eapply row_invariant; eauto using first_failed_invariant_listed. }
    destruct (string_field_cases formData "markdown" Hm) as [Hfm|[m Hfm]].
    { rewrite (unauth_invariant_failure request formData w w1) by auto 6.
      eapply row_invariant; eauto using first_failed_invariant_listed. }
    destruct (perform (UpdatePost i (Post.mk s t m)) w1) as [[e|[]] w2] eqn:Hup.
    + rewrite (unauth_valid_rejected request formData w w1 e w2 i t s m); auto.
      by eapply row_update_rejected.
    + rewrite (unauth_valid_redirect perform request formData w w1 w2 i t s m); auto.
      by eapply row_updated.
Qed.

End ActionTable.

Lemma FormData_get_app formData1 formData2 name :
  FormData_get (formData1 ++ formData2) name
  = match FormData_get formData1 name with
    | Some v => Some v
    | None => FormData_get formData2 name
    end.
Proof.
  induction formData1 as [|[k v] rest IH]; [done|]. simpl.
  by destruct (decide (k = name)).
Qed.

Lemma error_entry_cases formData name message :
  (empty_or_absent formData name ∧ error_entry formData name message = Some message)
  ∨ (¬ empty_or_absent formData name ∧ error_entry formData name message = None).
Proof.
  unfold empty_or_absent, error_entry.
  destruct (FormData_get formData name) as [[[|a s]|f]|];
    first [ left; split; [(by left) || (by right) | reflexivity]
          | right; split; [intros [?|?]; discriminate | reflexivity] ].
Qed.

Lemma errors_of_reports formData :
  empty_or_absent formData "title" ∨ empty_or_absent formData "slug"
    ∨ empty_or_absent formData "markdown" →
  reports_some_error (errors_of formData) ∧ uses_fixed_messages (errors_of formData).
Proof.
  unfold reports_some_error, uses_fixed_messages, errors_of. simpl. intros Hempty.
  destruct (error_entry_cases formData "title" "Title is required") as [[? ->]|[? ->]],
    (error_entry_cases formData "slug" "Slug is required") as [[? ->]|[? ->]],
    (error_entry_cases formData "markdown" "Markdown is required") as [[? ->]|[? ->]].
  all: split; [|repeat split; auto].
  all: unfold is_Some; destruct Hempty as [?|[?|?]]; try contradiction; eauto.
Qed.

Section MoreOfTheHandlers.
Context {W : Type}.
Variable perform : ∀ c : Call, W → (Thrown + Reply c) * W.

Lemma authed_session_rejected request w e w0 :
  rejects perform w (RequireUserId request) e w0 →
  run perform (Authed.action request) w
  = {| calls := [RequireUserId request]; result := inl e; final := w0 |}.
Proof. unfold rejects. intros Hu. run_known. reflexivity. Qed.

(** A run of either action, brought back to the rows of the
    unauthenticated one. *)
Lemma action_table v request w :
  (v = Authenticated
   ∧ ∃ e w0, rejects perform w (RequireUserId request) e w0
       ∧ run perform (action_of v request) w
         = {| calls := [RequireUserId request]; result := inl e; final := w0 |})
  ∨ (∃ w0 o,
       action_row perform request w0 o
       ∧ run perform (action_of v request) w
         = match v with
           | Unauthenticated => o
           | Authenticated => called (RequireUserId request) o
           end).
Proof.
  destruct v; cbn [action_of].
  - right. exists w, (run perform (Unauth.action request) w).
    split; [apply unauth_action_table | done].
  - destruct (perform (RequireUserId request) w) as [[e|userId] w0] eqn:Hu.
    + left. split; [done|]. exists e, w0. split; [done|].
      by apply authed_session_rejected.
    + right. exists w0, (run perform (Unauth.action request) w0).
      split; [apply unauth_action_table|].
      by apply run_authed_action with (userId := userId).
Qed.

(** X1: Whenever an action returns a response, it is either the redirect to
    [/posts/admin], after exactly one persistence call, or an errors
    object, after none; an errors object carries at least one message and
    only the fixed messages of the fields. *)
Theorem action_returns_redirect_or_errors v request w response :
  result (run perform (action_of v request) w) = inr response →
  (response = redirect "/posts/admin"
   ∧ length (persistence (run perform (action_of v request) w)) = 1)
  ∨ (∃ errors,
       response = json errors
       ∧ reports_some_error errors
       ∧ uses_fixed_messages errors
       ∧ persistence (run perform (action_of v request) w) = []).
Proof.
  destruct (action_table v request w) as [(-> & e & w0 & _ & ->)|(w0 & o & Hrow & ->)];
    [discriminate|].
  assert (∀ c : Call, is_persistence c = false →
            result (called c o) = result o
            ∧ persistence (called c o) = persistence o) as Hpre.
  { intros c Hc. by rewrite persistence_called, Hc. }
  assert (result o = inr response →
          (response = redirect "/posts/admin" ∧ length (persistence o) = 1)
          ∨ (∃ errors, response = json errors ∧ reports_some_error errors
               ∧ uses_fixed_messages errors ∧ persistence o = [])) as Ho.
  { destruct Hrow; simpl; intros [= <-]; eauto.
    right. exists (errors_of formData).
    destruct (errors_of_reports formData) as [? ?]; auto. }
  destruct v; [exact Ho|].
  destruct (Hpre (RequireUserId request) eq_refl) as [-> ->]. exact Ho.
Qed.


(** X3: A persistence call that rejects is not caught: the action rejects with
    the same value and returns no redirect. *)
Theorem rejected_persistence_call_rejects_action v request formData w w1 e w2 :
  receives perform v w request formData w1 →
  (delete_submission formData →
   rejects perform w1 (DeletePost (FormData_get formData "slug")) e w2 →
   run perform (action_of v request) w
   = {| calls := prelude v request ++ [DeletePost (FormData_get formData "slug")];
        result := inl e;
        final := w2 |})
  ∧ (∀ initialSlug title slug markdown,
       update_submission formData →
       FormData_get formData "initialSlug" = Some (FString initialSlug) →
       filled formData "title" title →
       filled formData "slug" slug →
       filled formData "markdown" markdown →
       rejects perform w1 (UpdatePost initialSlug (Post.mk slug title markdown)) e w2 →
       run perform (action_of v request) w
       = {| calls := prelude v request
                     ++ [UpdatePost initialSlug (Post.mk slug title markdown)];
            result := inl e;
            final := w2 |}).
Proof.
  intros Hr.
  destruct v; cbn [action_of prelude receives app] in Hr |- *;
    [|destruct Hr as (userId & w0 & Hu & Hr);
      rewrite (run_authed_action perform _ _ _ _ Hu)].
  all: split;
    [ intros Hd Hdel;
      by rewrite (unauth_delete_rejected perform _ _ _ _ _ _ Hd Hr Hdel)
    | intros i t s m Hd Hi Ht Hs Hm Hup;
      by rewrite (unauth_valid_rejected perform _ _ _ _ _ _ _ _ _ _ Hd Hr Hi Ht Hs Hm Hup) ].
Qed.

(** X4: When [request.formData()] rejects, the action rejects with the same
    value and makes no persistence call. *)
Theorem rejected_form_read_rejects_action v request w e w1 :
  match v with
  | Unauthenticated => rejects perform w (RequestFormData request) e w1
  | Authenticated =>
      ∃ userId w0,
        replies perform w (RequireUserId request) userId w0
        ∧ rejects perform w0 (RequestFormData request) e w1
  end →
  run perform (action_of v request) w
  = {| calls := prelude v request; result := inl e; final := w1 |}
  ∧ persistence (run perform (action_of v request) w) = [].
Proof.
  destruct v; cbn [action_of prelude].
  - intros Hf. by rewrite (unauth_form_rejected perform _ _ _ _ Hf).
  - intros (userId & w0 & Hu & Hf).
    rewrite (run_authed_action perform _ _ _ _ Hu).
    by rewrite (unauth_form_rejected perform _ _ _ _ Hf).
Qed.

(** X5: When validation passes but one of [initialSlug], [title], [slug],
    [markdown] is not a string, the action fails with the invariant of the
    first such value, in that order, and makes no persistence call.  In
    particular a file uploaded as title, slug or markdown is not reported
    in an errors object. *)
Theorem non_string_field_fails_first_invariant v request formData w w1 :
  update_submission formData →
  receives perform v w request formData w1 →
  present_nonempty formData "title" →
  present_nonempty formData "slug" →
  present_nonempty formData "markdown" →
  typeof_string (FormData_get formData "initialSlug") = None
    ∨ holds_file formData "title" ∨ holds_file formData "slug"
    ∨ holds_file formData "markdown" →
  run perform (action_of v request) w
  = {| calls := prelude v request;
       result := inl (InvariantFailed (first_failed_invariant formData));
       final := w1 |}
  ∧ persistence (run perform (action_of v request) w) = [].
Proof.
  intros Hd Hr Ht Hs Hm Hbad.
  destruct v; cbn [action_of prelude receives] in Hr |- *;
    [|destruct Hr as (userId & w0 & Hu & Hr);
      rewrite (run_authed_action perform _ _ _ _ Hu)].
  all: by rewrite (unauth_invariant_failure perform _ _ _ _ Hd Hr Ht Hs Hm Hbad).
Qed.

(** X6: The action looks only at the last [_action] entry and at the first
    [initialSlug], [title], [slug] and [markdown] entries: two submissions
    that agree on these get the same response or failure, the same
    persistence calls and the same final environment. *)
Theorem same_fields_same_behaviour v request1 request2 formData1 formData2 w w1 :
  receives perform v w request1 formData1 w1 →
  receives perform v w request2 formData2 w1 →
  same_fields_read formData1 formData2 →
  result (run perform (action_of v request1) w)
  = result (run perform (action_of v request2) w)
  ∧ persistence (run perform (action_of v request1) w)
    = persistence (run perform (action_of v request2) w)
  ∧ final (run perform (action_of v request1) w)
    = final (run perform (action_of v request2) w).
Proof.
  intros Hr1 Hr2 [Ha Hg].
  assert (Hi := Hg "initialSlug"). assert (Ht := Hg "title").
  assert (Hs := Hg "slug"). assert (Hm := Hg "markdown").
  destruct v; cbn [action_of receives] in Hr1, Hr2 |- *.
  - unfold replies in *. simpl. rewrite Hr1, Hr2. cbn [called result final calls].
    unfold persistence. cbn [called calls filter List.filter is_persistence].
    rewrite Ha, Hi, Ht, Hs, Hm by (set_unfold; tauto). done.
  - destruct Hr1 as (u1 & w01 & Hu1 & Hf1), Hr2 as (u2 & w02 & Hu2 & Hf2).
    unfold replies in *. simpl. rewrite Hu1, Hu2. simpl. rewrite Hf1, Hf2.
    cbn [called result final calls].
    unfold persistence. cbn [called calls filter List.filter is_persistence].
    rewrite Ha, Hi, Ht, Hs, Hm by (set_unfold; tauto). done.
Qed.

(** X8: Neither loader checks the session or writes anything: a run makes no
    call at all when the slug parameter is missing, and otherwise the
    single call [getPost(params.slug)]. *)
Theorem loader_only_reads v params w :
  (slug_missing params ∧ calls (run perform (loader_of v params) w) = [])
  ∨ (∃ slug,
       slug_present params slug
       ∧ calls (run perform (loader_of v params) w) = [GetPost slug]).
Proof.
  assert (loader_of v params = Unauth.loader params) as -> by by destruct v.
  destruct (params !! "slug") as [slug|] eqn:Hp.
  - destruct (decide (slug = "")) as [->|Hne].
    + left. split; [by right|]. by rewrite unauth_loader_missing by by right.
    + right. exists slug. split; [done|].
      destruct (perform (GetPost slug) w) as [[e|[post|]] w'] eqn:Hg.
      * unfold Unauth.loader, invariant, narrow_truthy_string. rewrite Hp.
        run_known. reflexivity.
      * by rewrite (unauth_loader_found perform params slug post w w').
      * by rewrite (unauth_loader_not_found perform params slug w w').
  - left. split; [by left|]. by rewrite unauth_loader_missing by by left.
Qed.

(** X9: When [getPost] rejects, the loader rejects with the same value. *)
Theorem rejected_getPost_rejects_loader v params slug w e w' :
  slug_present params slug →
  rejects perform w (GetPost slug) e w' →
  run perform (loader_of v params) w
  = {| calls := [GetPost slug]; result := inl e; final := w' |}.
Proof.
  assert (loader_of v params = Unauth.loader params) as -> by by destruct v.
  unfold rejects. intros [Hp Hne] Hg.
  unfold Unauth.loader, invariant, narrow_truthy_string. rewrite Hp.
  run_known. reflexivity.
Qed.

End MoreOfTheHandlers.

(** X7: Of several [_action] entries the last one decides the branch, of
    several entries of another name [formData.get] takes the first, and
    without an [_action] entry the discriminator is [undefined]. *)
Theorem last_action_entry_first_field_entry (before after : FormData) name value :
  (FormData_get after "_action" = None →
   _action (before ++ ("_action", value) :: after) = Some value)
  ∧ (FormData_get before name = None →
     FormData_get (before ++ (name, value) :: after) name = Some value)
  ∧ (FormData_get before "_action" = None → _action before = None).
Proof.
  unfold _action. rewrite !Object_fromEntries_lookup. split; [|split].
  - intros Hafter. rewrite reverse_app, reverse_cons, FormData_get_app, FormData_get_app.
    destruct (FormData_get (reverse after) "_action") eqn:Hrev.
    + exfalso. revert Hrev Hafter. clear.
      induction after as [|[k v] rest IH]; [done|].
      rewrite reverse_cons, FormData_get_app. simpl.
      destruct (decide (k = "_action")); [done|].
      destruct (FormData_get (reverse rest) "_action"); [by auto|]. done.
    + simpl. by rewrite ?decide_True.
  - intros Hbefore. rewrite FormData_get_app, Hbefore. simpl. by rewrite ?decide_True.
  - intros Hbefore.
    induction before as [|[k v] rest IH]; [done|].
    simpl in Hbefore. destruct (decide (k = "_action")); [done|].
    rewrite reverse_cons, FormData_get_app, (IH Hbefore). simpl.
    by rewrite ?decide_False.
Qed.

(** * Properties of the page *)

Lemma error_message_cases errors field :
  (error_message errors field = Null)
  ∨ ∃ message,
      error_message errors field
      = Element "em" [("className", PString "text-red-600")] [Text message].
Proof.
  unfold error_message. destruct (errors ≫= field) as [m|]; [|by left].
  destruct (truthy_string (Some m)); eauto.
Qed.

#[local] Arguments error_message : simpl never.

(** Computes what an event does on a page whose state is given by
    hypotheses: takes the page apart, splits on which of the three
    messages the render shows, and evaluates. *)
Ltac on_page page :=
  let ad := fresh "actionData" in
  let ld := fresh "loaderData" in
  let ts := fresh "submission" in
  let ab := fresh "active" in
  let sm := fresh "modal" in
  let fld := fresh "fields" in
  let E1 := fresh "Etitle" in
  let E2 := fresh "Eslug" in
  let E3 := fresh "Emarkdown" in
  destruct page as [[ad ld ts ab sm] fld]; simpl in *; subst;
  destruct (error_message_cases ad ActionData.title) as [E1|[? E1]];
  destruct (error_message_cases ad ActionData.slug) as [E2|[? E2]];
  destruct (error_message_cases ad ActionData.markdown) as [E3|[? E3]];
  unfold buttons, dialog_confirm_label, submitting;
  unfold press, confirm, close, click, dialog, button_named, button_label,
    button_disabled, querySelector, submission, page_entries, with_state,
    AuthedView.EditPostSlug, UnauthView.EditPostSlug, AuthedView.DeleteModal;
  cbn [hooks field useActionData useLoaderData transition_submission activeButton
       showDeleteModal];
  rewrite ?E1, ?E2, ?E3; vm_compute.

(** X10: In the authenticated variant, with the dialog closed a click on
    Delete never submits the form; when no submission is in flight it
    opens the dialog and changes nothing else. *)
Theorem first_delete_click_opens_dialog page :
  showDeleteModal (hooks page) = false →
  snd (press AuthedView.EditPostSlug (Some "_action") page) = None
  ∧ (transition_submission (hooks page) = None →
     fst (press AuthedView.EditPostSlug (Some "_action") page)
     = {| hooks := with_state (activeButton (hooks page)) true (hooks page);
          field := field page |}).
Proof.
  intros Hm. split.
  - destruct (transition_submission (hooks page)) eqn:Ht; on_page page; reflexivity.
  - intros Ht. on_page page; reflexivity.
Qed.

Lemma confirm_authed page :
  showDeleteModal (hooks page) = true →
  transition_submission (hooks page) = None →
  confirm AuthedView.EditPostSlug page
  = ({| hooks := submitting (page_entries page ++ [("_action", FString "delete")])
                   (with_state (Some "delete") true (hooks page));
        field := field page |},
     Some (page_entries page ++ [("_action", FString "delete")])%list).
Proof. intros Hm Ht. on_page page; reflexivity. Qed.

Lemma press_delete_authed page :
  showDeleteModal (hooks page) = true →
  transition_submission (hooks page) = None →
  press AuthedView.EditPostSlug (Some "_action") page
  = confirm AuthedView.EditPostSlug page.
Proof. intros Hm Ht. on_page page; reflexivity. Qed.

Lemma press_update_authed page :
  transition_submission (hooks page) = None →
  press AuthedView.EditPostSlug None page
  = ({| hooks := submitting (page_entries page)
                   (with_state (Some "update") (showDeleteModal (hooks page)) (hooks page));
        field := field page |},
     Some (page_entries page)).
Proof.
  intros Ht. destruct (showDeleteModal (hooks page)) eqn:Hm; on_page page; reflexivity.
Qed.

Lemma press_update_unauth page :
  transition_submission (hooks page) = None →
  press UnauthView.EditPostSlug None page
  = ({| hooks := submitting (page_entries page) (hooks page); field := field page |},
     Some (page_entries page)).
Proof. intros Ht. on_page page; reflexivity. Qed.

Lemma press_delete_unauth page :
  press UnauthView.EditPostSlug (Some "_action") page
  = ({| hooks := submitting (page_entries page ++ [("_action", FString "delete")])
                   (hooks page);
        field := field page |},
     Some (page_entries page ++ [("_action", FString "delete")])%list).
Proof.
  destruct (transition_submission (hooks page)) eqn:Ht; on_page page; reflexivity.
Qed.

Section PageAndAction.
Context {W : Type}.
Variable perform : ∀ c : Call, W → (Thrown + Reply c) * W.

Lemma variant_delete_persistence v request formData w w1 :
  delete_submission formData →
  receives perform v w request formData w1 →
  persistence (run perform (action_of v request) w)
  = [DeletePost (FormData_get formData "slug")].
Proof.
  intros Hd Hr.
  destruct v; cbn [action_of receives] in Hr |- *;
    [|destruct Hr as (userId & w0 & Hu & Hr);
      rewrite (run_authed_action perform _ _ _ _ Hu), persistence_called;
      cbn [is_persistence]].
  all: by eapply unauth_delete_persistence.
Qed.

Lemma variant_update_persistence v request formData w w1 initialSlug title slug markdown :
  update_submission formData →
  receives perform v w request formData w1 →
  FormData_get formData "initialSlug" = Some (FString initialSlug) →
  filled formData "title" title →
  filled formData "slug" slug →
  filled formData "markdown" markdown →
  persistence (run perform (action_of v request) w)
  = [UpdatePost initialSlug (Post.mk slug title markdown)].
Proof.
  intros Hd Hr Hi Ht Hs Hm.
  destruct v; cbn [action_of receives] in Hr |- *;
    [|destruct Hr as (userId & w0 & Hu & Hr);
      rewrite (run_authed_action perform _ _ _ _ Hu), persistence_called;
      cbn [is_persistence]].
  all: by eapply unauth_valid_persistence.
Qed.

(** X11: In the authenticated variant, confirming in the dialog (or pressing
    Delete again while the dialog is open) makes exactly one submission,
    a delete submission, and marks the Delete button as the active one.
    The action then deletes the post named by the text currently in the
    slug field, not by the hidden [initialSlug]. *)
Theorem confirming_deletes_by_slug_field page :
  showDeleteModal (hooks page) = true →
  transition_submission (hooks page) = None →
  confirm AuthedView.EditPostSlug page
  = ({| hooks := submitting (page_entries page ++ [("_action", FString "delete")])
                   (with_state (Some "delete") true (hooks page));
        field := field page |},
     Some (page_entries page ++ [("_action", FString "delete")])%list)
  ∧ press AuthedView.EditPostSlug (Some "_action") page
    = confirm AuthedView.EditPostSlug page
  ∧ ∀ request w w1,
      receives perform Authenticated w request
        (page_entries page ++ [("_action", FString "delete")]) w1 →
      persistence (run perform (Authed.action request) w)
      = [DeletePost (Some (FString (field page slugRef)))].
Proof.
  intros Hm Ht. split; [by apply confirm_authed|].
  split; [by apply press_delete_authed|].
  intros request w w1 Hr.
  assert (delete_submission (page_entries page ++ [("_action", FString "delete")])%list)
    as Hd by (by vm_compute).
  exact (variant_delete_persistence Authenticated request _ w w1 Hd Hr).
Qed.

(** X16: In the variant without a session check the Delete button submits at
    once: no confirmation is asked, and the button is not disabled while
    another submission is in flight.  The action then deletes the post
    named by the text currently in the slug field. *)
Theorem unauthenticated_delete_submits_at_once page :
  press UnauthView.EditPostSlug (Some "_action") page
  = ({| hooks := submitting (page_entries page ++ [("_action", FString "delete")])
                   (hooks page);
        field := field page |},
     Some (page_entries page ++ [("_action", FString "delete")])%list)
  ∧ ∀ request w w1,
      receives perform Unauthenticated w request
        (page_entries page ++ [("_action", FString "delete")]) w1 →
      persistence (run perform (Unauth.action request) w)
      = [DeletePost (Some (FString (field page slugRef)))].
Proof.
  split; [by apply press_delete_unauth|].
  intros request w w1 Hr.
  assert (delete_submission (page_entries page ++ [("_action", FString "delete")])%list)
    as Hd by (by vm_compute).
  exact (variant_delete_persistence Unauthenticated request _ w w1 Hd Hr).
Qed.

Lemma press_update v page :
  transition_submission (hooks page) = None →
  snd (press (view_of v) None page) = Some (page_entries page).
Proof.
  intros Ht. destruct v; cbn [view_of].
  - by rewrite press_update_unauth.
  - by rewrite press_update_authed.
Qed.

(** X18: Pressing Update while nothing is in flight submits the hidden
    [initialSlug], always the loaded post's slug, and the text of the
    three fields, without an [_action] entry.  So the [initialSlug]
    invariant cannot fail for a submission made through the page, and
    when the three fields are non-empty the action's one persistence call
    is the update of the loaded post to the text of the fields. *)
Theorem pressing_update_updates_loaded_post v page :
  transition_submission (hooks page) = None →
  snd (press (view_of v) None page) = Some (page_entries page)
  ∧ update_submission (page_entries page)
  ∧ FormData_get (page_entries page) "initialSlug"
    = Some (FString (Post.slug (LoaderData.post (useLoaderData (hooks page)))))
  ∧ (field page titleRef ≠ "" → field page slugRef ≠ "" → field page markdownRef ≠ "" →
     ∀ request w w1,
       receives perform v w request (page_entries page) w1 →
       persistence (run perform (action_of v request) w)
       = [UpdatePost (Post.slug (LoaderData.post (useLoaderData (hooks page))))
            (Post.mk (field page slugRef) (field page titleRef)
               (field page markdownRef))]).
Proof.
  intros Ht. split; [by apply press_update|].
  assert (update_submission (page_entries page)) as Hd by (by vm_compute).
  split; [exact Hd|]. split; [reflexivity|].
  intros Ht' Hs' Hm' request w w1 Hr.
  by apply (variant_update_persistence v request (page_entries page) w w1).
Qed.


(** X20: The messages of an errors object returned by an action are shown in
    red on the page that receives it, in the order title, slug, markdown,
    and nothing else is; without action data nothing is shown in red. *)
Theorem returned_errors_are_shown va request w errors v h :
  result (run perform (action_of va request) w) = inr (json errors) →
  (useActionData h = Some errors →
   error_texts (view_of v h) = omap id (Object_values errors))
  ∧ (useActionData h = None → error_texts (view_of v h) = []).
Proof.
  intros Hresult.
  assert (uses_fixed_messages errors) as (Ht & Hs & Hm).
  { destruct (action_table perform va request w)
      as [(-> & e & w0 & _ & Hrun)|(w0 & o & Hrow & Hrun)];
      rewrite Hrun in Hresult; [discriminate|].
    assert (result o = inr (json errors)) as Ho by (by destruct va).
    destruct Hrow; simpl in Ho; try discriminate; injection Ho as <-.
    apply errors_of_reports; assumption. }
  split; intros Hdata.
  - destruct h as [ad ld ts ab sm], errors as [et es em]; simpl in *; subst.
    destruct Ht as [-> | ->], Hs as [-> | ->], Hm as [-> | ->];
      destruct v, sm; reflexivity.
  - destruct h as [ad ld ts ab sm]; simpl in *; subst. by destruct v, sm.
Qed.

End PageAndAction.

(** X15: In the authenticated variant only the button that started the
    submission shows its progress label, and both buttons are disabled
    while it is in flight: after Update was pressed the buttons read
    "Updating..." and "Delete Post", after the deletion was confirmed they
    read "Update Post" and "Deleting...", as does the dialog's button. *)
Theorem progress_label_follows_pressed_button page :
  transition_submission (hooks page) = None →
  buttons (AuthedView.EditPostSlug
             (hooks (fst (press AuthedView.EditPostSlug None page))))
  = [(Some "Updating...", Some true); (Some "Delete Post", Some true)]
  ∧ (showDeleteModal (hooks page) = true →
     buttons (AuthedView.EditPostSlug (hooks (fst (confirm AuthedView.EditPostSlug page))))
     = [(Some "Update Post", Some true); (Some "Deleting...", Some true)]
     ∧ dialog_confirm_label
         (AuthedView.EditPostSlug (hooks (fst (confirm AuthedView.EditPostSlug page))))
       = Some "Deleting...").
Proof.
  intros Ht. split.
  - rewrite press_update_authed by done. cbn [fst hooks].
    destruct (showDeleteModal (hooks page)) eqn:Hm; on_page page; reflexivity.
  - intros Hm. rewrite confirm_authed by done. cbn [fst hooks].
    split; on_page page; reflexivity.
Qed.

(** X17: In the variant without a session check the page looks the same
    whichever button started the submission: Update reads "Updating..."
    and is disabled, Delete keeps its label and stays enabled. *)
Theorem unauthenticated_page_shows_updating_for_any_submission page :
  buttons (UnauthView.EditPostSlug
             (hooks (fst (press UnauthView.EditPostSlug (Some "_action") page))))
  = [(Some "Updating...", Some true); (Some "Delete Post", Some false)]
  ∧ (transition_submission (hooks page) = None →
     buttons (UnauthView.EditPostSlug
                (hooks (fst (press UnauthView.EditPostSlug None page))))
     = [(Some "Updating...", Some true); (Some "Delete Post", Some false)]).
Proof.
  split.
  - rewrite press_delete_unauth. cbn [fst hooks]. on_page page; reflexivity.
  - intros Ht. rewrite press_update_unauth by done. cbn [fst hooks].
    on_page page; reflexivity.
Qed.

(** X14: While a submission is in flight the authenticated page submits nothing
    more: pressing Update, pressing Delete and confirming in the dialog
    all leave the page as it is. *)
Theorem nothing_is_submitted_while_submitting page formData :
  transition_submission (hooks page) = Some formData →
  press AuthedView.EditPostSlug None page = (page, None)
  ∧ press AuthedView.EditPostSlug (Some "_action") page = (page, None)
  ∧ confirm AuthedView.EditPostSlug page = (page, None).
Proof.
  intros Ht. destruct (showDeleteModal (hooks page)) eqn:Hm; on_page page; done.
Qed.

(** X21: The effect that clears [activeButton] never changes what the page
    renders: it acts only when no submission is in flight, and then the
    render does not depend on [activeButton]. *)
Theorem transition_effect_is_invisible h :
  AuthedView.EditPostSlug (transition_effect h) = AuthedView.EditPostSlug h.
Proof.
  destruct h as [ad ld [fd|] ab sm]; reflexivity.
Qed.

Lemma action_returns_redirect_or_errors_witness :
  result (run Memory.perform (Unauth.action (Memory.anonymous Memory.blank_title_form))
            Memory.store)
  = inr (json (ActionData.mk (Some "Title is required") None None))
  ∧ ((json (ActionData.mk (Some "Title is required") None None)
      = redirect "/posts/admin"
      ∧ length (persistence
                  (run Memory.perform
                     (Unauth.action (Memory.anonymous Memory.blank_title_form))
                     Memory.store)) = 1)
     ∨ (∃ errors,
          json (ActionData.mk (Some "Title is required") None None) = json errors
          ∧ reports_some_error errors
          ∧ uses_fixed_messages errors
          ∧ persistence
              (run Memory.perform
                 (Unauth.action (Memory.anonymous Memory.blank_title_form))
                 Memory.store) = [])).
Proof.
  assert (result (run Memory.perform
                    (Unauth.action (Memory.anonymous Memory.blank_title_form))
                    Memory.store)
          = inr (json (ActionData.mk (Some "Title is required") None None)))
    as H by (by vm_compute).
  split; [exact H|].
  exact (action_returns_redirect_or_errors Memory.perform Unauthenticated _ _ _ H).
Defined.

Lemma rejected_persistence_call_rejects_action_witness :
  receives Faulty.perform Authenticated Faulty.read_only
    (Memory.signed_in Memory.delete_form) Memory.delete_form Faulty.read_only
  ∧ delete_submission Memory.delete_form
  ∧ rejects Faulty.perform Faulty.read_only
      (DeletePost (FormData_get Memory.delete_form "slug"))
      (ThrownError "database unavailable") Faulty.read_only
  ∧ run Faulty.perform (Authed.action (Memory.signed_in Memory.delete_form))
      Faulty.read_only
    = {| calls := [RequireUserId (Memory.signed_in Memory.delete_form);
                   RequestFormData (Memory.signed_in Memory.delete_form);
                   DeletePost (Some (FString "my-post"))];
         result := inl (ThrownError "database unavailable");
         final := Faulty.read_only |}
  ∧ (receives Faulty.perform Unauthenticated Faulty.read_only
       (Memory.anonymous Memory.update_form) Memory.update_form Faulty.read_only
     ∧ update_submission Memory.update_form
     ∧ FormData_get Memory.update_form "initialSlug" = Some (FString "my-post")
     ∧ filled Memory.update_form "title" "Hello again"
     ∧ filled Memory.update_form "slug" "hello-again"
     ∧ filled Memory.update_form "markdown" "# Hello again"
     ∧ rejects Faulty.perform Faulty.read_only
         (UpdatePost "my-post" Memory.hello_again)
         (ThrownError "database unavailable") Faulty.read_only
     ∧ run Faulty.perform (Unauth.action (Memory.anonymous Memory.update_form))
         Faulty.read_only
       = {| calls := [RequestFormData (Memory.anonymous Memory.update_form);
                      UpdatePost "my-post" Memory.hello_again];
            result := inl (ThrownError "database unavailable");
            final := Faulty.read_only |}).
Proof.
  assert (receives Faulty.perform Authenticated Faulty.read_only
            (Memory.signed_in Memory.delete_form) Memory.delete_form Faulty.read_only)
    as Hr by (exists "user-1", Faulty.read_only; split; reflexivity).
  assert (delete_submission Memory.delete_form) as Hd by (by vm_compute).
  assert (rejects Faulty.perform Faulty.read_only
            (DeletePost (FormData_get Memory.delete_form "slug"))
            (ThrownError "database unavailable") Faulty.read_only)
    as Hdel by reflexivity.
  assert (receives Faulty.perform Unauthenticated Faulty.read_only
            (Memory.anonymous Memory.update_form) Memory.update_form Faulty.read_only)
    as Hr' by reflexivity.
  assert (update_submission Memory.update_form) as Hd' by (by vm_compute).
  assert (FormData_get Memory.update_form "initialSlug" = Some (FString "my-post"))
    as Hi by reflexivity.
  assert (filled Memory.update_form "title" "Hello again")
    as Ht by (split; [reflexivity | discriminate]).
  assert (filled Memory.update_form "slug" "hello-again")
    as Hs by (split; [reflexivity | discriminate]).
  assert (filled Memory.update_form "markdown" "# Hello again")
    as Hm by (split; [reflexivity | discriminate]).
  assert (rejects Faulty.perform Faulty.read_only
            (UpdatePost "my-post" Memory.hello_again)
            (ThrownError "database unavailable") Faulty.read_only)
    as Hup by reflexivity.
  split; [exact Hr|]. split; [exact Hd|]. split; [exact Hdel|].
  split.
  { exact (proj1 (rejected_persistence_call_rejects_action Faulty.perform Authenticated
                    _ _ _ _ _ _ Hr) Hd Hdel). }
  repeat (split; [assumption|]).
  exact (proj2 (rejected_persistence_call_rejects_action Faulty.perform Unauthenticated
                  _ _ _ _ _ _ Hr') _ _ _ _ Hd' Hi Ht Hs Hm Hup).
Defined.

Lemma rejected_form_read_rejects_action_witness :
  (∃ userId w0,
     replies Faulty.perform Faulty.unreadable
       (RequireUserId (Memory.signed_in Memory.update_form)) userId w0
     ∧ rejects Faulty.perform w0 (RequestFormData (Memory.signed_in Memory.update_form))
         (ThrownError "malformed body") Faulty.unreadable)
  ∧ run Faulty.perform (Authed.action (Memory.signed_in Memory.update_form))
      Faulty.unreadable
    = {| calls := [RequireUserId (Memory.signed_in Memory.update_form);
                   RequestFormData (Memory.signed_in Memory.update_form)];
         result := inl (ThrownError "malformed body");
         final := Faulty.unreadable |}
  ∧ persistence
      (run Faulty.perform (Authed.action (Memory.signed_in Memory.update_form))
         Faulty.unreadable)
    = [].
Proof.
  assert (∃ userId w0,
            replies Faulty.perform Faulty.unreadable
              (RequireUserId (Memory.signed_in Memory.update_form)) userId w0
            ∧ rejects Faulty.perform w0
                (RequestFormData (Memory.signed_in Memory.update_form))
                (ThrownError "malformed body") Faulty.unreadable)
    as H by (exists "user-1", Faulty.unreadable; split; reflexivity).
  split; [exact H|].
  exact (rejected_form_read_rejects_action Faulty.perform Authenticated _ _ _ _ H).
Defined.

Lemma non_string_field_fails_first_invariant_witness :
  update_submission MoreForms.file_title_form
  ∧ receives Memory.perform Unauthenticated Memory.store
      (Memory.anonymous MoreForms.file_title_form) MoreForms.file_title_form
      Memory.store
  ∧ present_nonempty MoreForms.file_title_form "title"
  ∧ present_nonempty MoreForms.file_title_form "slug"
  ∧ present_nonempty MoreForms.file_title_form "markdown"
  ∧ (typeof_string (FormData_get MoreForms.file_title_form "initialSlug") = None
     ∨ holds_file MoreForms.file_title_form "title"
     ∨ holds_file MoreForms.file_title_form "slug"
     ∨ holds_file MoreForms.file_title_form "markdown")
  ∧ run Memory.perform (Unauth.action (Memory.anonymous MoreForms.file_title_form))
      Memory.store
    = {| calls := [RequestFormData (Memory.anonymous MoreForms.file_title_form)];
         result := inl (InvariantFailed "title must be a string");
         final := Memory.store |}
  ∧ persistence
      (run Memory.perform (Unauth.action (Memory.anonymous MoreForms.file_title_form))
         Memory.store)
    = [].
Proof.
  assert (update_submission MoreForms.file_title_form) as Hd by (by vm_compute).
  assert (receives Memory.perform Unauthenticated Memory.store
            (Memory.anonymous MoreForms.file_title_form) MoreForms.file_title_form
            Memory.store) as Hr by reflexivity.
  assert (present_nonempty MoreForms.file_title_form "title")
    as Ht by (eexists; split; [reflexivity | discriminate]).
  assert (present_nonempty MoreForms.file_title_form "slug")
    as Hs by (eexists; split; [reflexivity | discriminate]).
  assert (present_nonempty MoreForms.file_title_form "markdown")
    as Hm by (eexists; split; [reflexivity | discriminate]).
  assert (typeof_string (FormData_get MoreForms.file_title_form "initialSlug") = None
          ∨ holds_file MoreForms.file_title_form "title"
          ∨ holds_file MoreForms.file_title_form "slug"
          ∨ holds_file MoreForms.file_title_form "markdown")
    as Hbad by (right; left; exists MoreForms.cover; reflexivity).
  repeat (split; [assumption|]).
  exact (non_string_field_fails_first_invariant Memory.perform Unauthenticated
           _ _ _ _ Hd Hr Ht Hs Hm Hbad).
Defined.

Lemma same_fields_same_behaviour_witness :
  receives Memory.perform Unauthenticated Memory.store
    (Memory.anonymous MoreForms.saving_update_form) MoreForms.saving_update_form
    Memory.store
  ∧ receives Memory.perform Unauthenticated Memory.store
      (Memory.anonymous MoreForms.shuffled_update_form) MoreForms.shuffled_update_form
      Memory.store
  ∧ same_fields_read MoreForms.saving_update_form MoreForms.shuffled_update_form
  ∧ result (run Memory.perform
              (Unauth.action (Memory.anonymous MoreForms.saving_update_form))
              Memory.store)
    = result (run Memory.perform
                (Unauth.action (Memory.anonymous MoreForms.shuffled_update_form))
                Memory.store)
  ∧ persistence (run Memory.perform
                   (Unauth.action (Memory.anonymous MoreForms.saving_update_form))
                   Memory.store)
    = persistence (run Memory.perform
                     (Unauth.action (Memory.anonymous MoreForms.shuffled_update_form))
                     Memory.store)
  ∧ final (run Memory.perform
             (Unauth.action (Memory.anonymous MoreForms.saving_update_form))
             Memory.store)
    = final (run Memory.perform
               (Unauth.action (Memory.anonymous MoreForms.shuffled_update_form))
               Memory.store).
Proof.
  assert (receives Memory.perform Unauthenticated Memory.store
            (Memory.anonymous MoreForms.saving_update_form)
            MoreForms.saving_update_form Memory.store) as H1 by reflexivity.
  assert (receives Memory.perform Unauthenticated Memory.store
            (Memory.anonymous MoreForms.shuffled_update_form)
            MoreForms.shuffled_update_form Memory.store) as H2 by reflexivity.
  assert (same_fields_read MoreForms.saving_update_form MoreForms.shuffled_update_form)
    as H3.
  { split; [by vm_compute|]. intros name Hname.
    repeat (apply elem_of_cons in Hname as [->|Hname]; [reflexivity|]).
    by apply elem_of_nil in Hname. }
  repeat (split; [assumption|]).
  exact (same_fields_same_behaviour Memory.perform Unauthenticated _ _ _ _ _ _ H1 H2 H3).
Defined.

Lemma rejected_getPost_rejects_loader_witness :
  slug_present Memory.params_my_post "my-post"
  ∧ rejects Faulty.perform Faulty.read_only (GetPost "my-post")
      (ThrownError "database unavailable") Faulty.read_only
  ∧ run Faulty.perform (Authed.loader Memory.params_my_post) Faulty.read_only
    = {| calls := [GetPost "my-post"];
         result := inl (ThrownError "database unavailable");
         final := Faulty.read_only |}.
Proof.
  assert (slug_present Memory.params_my_post "my-post")
    as Hp by (split; [reflexivity | discriminate]).
  assert (rejects Faulty.perform Faulty.read_only (GetPost "my-post")
            (ThrownError "database unavailable") Faulty.read_only)
    as Hg by reflexivity.
  repeat (split; [assumption|]).
  exact (rejected_getPost_rejects_loader Faulty.perform Authenticated _ _ _ _ _ Hp Hg).
Defined.

Lemma last_action_entry_first_field_entry_witness :
  (FormData_get [("slug", FString "my-post")] "_action" = None
   ∧ _action ([("_action", FString "delete")] ++ ("_action", FString "save")
              :: [("slug", FString "my-post")])
     = Some (FString "save"))
  ∧ (FormData_get [("_action", FString "delete")] "slug" = None
     ∧ FormData_get ([("_action", FString "delete")] ++ ("slug", FString "my-post")
                     :: [("slug", FString "another")]) "slug"
       = Some (FString "my-post"))
  ∧ (FormData_get [("slug", FString "my-post")] "_action" = None
     ∧ _action [("slug", FString "my-post")] = None).
Proof.
  assert (FormData_get [("slug", FString "my-post")] "_action" = None) as H1
    by reflexivity.
  assert (FormData_get [("_action", FString "delete")] "slug" = None) as H2
    by reflexivity.
  split; [split; [exact H1|]|split; [split; [exact H2|]|split; [exact H1|]]].
  - exact (proj1 (last_action_entry_first_field_entry
                    [("_action", FString "delete")] [("slug", FString "my-post")]
                    "slug" (FString "save")) H1).
  - exact (proj1 (proj2 (last_action_entry_first_field_entry
                           [("_action", FString "delete")]
                           [("slug", FString "another")] "slug" (FString "my-post")))
             H2).
  - exact (proj2 (proj2 (last_action_entry_first_field_entry
                           [("slug", FString "my-post")] [] "slug" (FString "x")))
             H1).
Defined.

Lemma first_delete_click_opens_dialog_witness :
  showDeleteModal (hooks Sample.fresh) = false
  ∧ snd (press AuthedView.EditPostSlug (Some "_action") Sample.fresh) = None
  ∧ transition_submission (hooks Sample.fresh) = None
  ∧ fst (press AuthedView.EditPostSlug (Some "_action") Sample.fresh) = Sample.asking.
Proof.
  assert (showDeleteModal (hooks Sample.fresh) = false) as Hm by reflexivity.
  assert (transition_submission (hooks Sample.fresh) = None) as Ht by reflexivity.
  destruct (first_delete_click_opens_dialog Sample.fresh Hm) as [Hnone Hopen].
  split; [exact Hm|]. split; [exact Hnone|]. split; [exact Ht|]. exact (Hopen Ht).
Defined.

Lemma confirming_deletes_by_slug_field_witness :
  showDeleteModal (hooks Sample.asking) = true
  ∧ transition_submission (hooks Sample.asking) = None
  ∧ snd (confirm AuthedView.EditPostSlug Sample.asking)
    = Some [("initialSlug", FString "my-post"); ("title", FString "Hello again");
            ("slug", FString "hello-again"); ("markdown", FString "# Hello again");
            ("_action", FString "delete")]
  ∧ press AuthedView.EditPostSlug (Some "_action") Sample.asking
    = confirm AuthedView.EditPostSlug Sample.asking
  ∧ receives Memory.perform Authenticated Memory.store
      (Memory.signed_in (page_entries Sample.asking ++ [("_action", FString "delete")]))
      (page_entries Sample.asking ++ [("_action", FString "delete")]) Memory.store
  ∧ persistence
      (run Memory.perform
         (Authed.action
            (Memory.signed_in
               (page_entries Sample.asking ++ [("_action", FString "delete")])))
         Memory.store)
    = [DeletePost (Some (FString "hello-again"))].
Proof.
  assert (showDeleteModal (hooks Sample.asking) = true) as Hm by reflexivity.
  assert (transition_submission (hooks Sample.asking) = None) as Ht by reflexivity.
  assert (receives Memory.perform Authenticated Memory.store
            (Memory.signed_in
               (page_entries Sample.asking ++ [("_action", FString "delete")]))
            (page_entries Sample.asking ++ [("_action", FString "delete")])
            Memory.store)
    as Hr by (exists "user-1", Memory.store; split; reflexivity).
  destruct (confirming_deletes_by_slug_field Memory.perform Sample.asking Hm Ht)
    as (Hconfirm & Hpress & Hdelete).
  split; [exact Hm|]. split; [exact Ht|].
  split; [exact (f_equal snd Hconfirm)|]. split; [exact Hpress|].
  split; [exact Hr|]. exact (Hdelete _ _ _ Hr).
Defined.

Lemma unauthenticated_delete_submits_at_once_witness :
  snd (press UnauthView.EditPostSlug (Some "_action") Sample.busy)
  = Some [("initialSlug", FString "my-post"); ("title", FString "Hello again");
          ("slug", FString "hello-again"); ("markdown", FString "# Hello again");
          ("_action", FString "delete")]
  ∧ receives Memory.perform Unauthenticated Memory.store
      (Memory.anonymous (page_entries Sample.busy ++ [("_action", FString "delete")]))
      (page_entries Sample.busy ++ [("_action", FString "delete")]) Memory.store
  ∧ persistence
      (run Memory.perform
         (Unauth.action
            (Memory.anonymous
               (page_entries Sample.busy ++ [("_action", FString "delete")])))
         Memory.store)
    = [DeletePost (Some (FString "hello-again"))].
Proof.
  assert (receives Memory.perform Unauthenticated Memory.store
            (Memory.anonymous
               (page_entries Sample.busy ++ [("_action", FString "delete")]))
            (page_entries Sample.busy ++ [("_action", FString "delete")])
            Memory.store) as Hr by reflexivity.
  destruct (unauthenticated_delete_submits_at_once Memory.perform Sample.busy)
    as (Hpress & Hdelete).
  split; [exact (f_equal snd Hpress)|]. split; [exact Hr|]. exact (Hdelete _ _ _ Hr).
Defined.

Lemma pressing_update_updates_loaded_post_witness :
  transition_submission (hooks Sample.fresh) = None
  ∧ snd (press AuthedView.EditPostSlug None Sample.fresh) = Some Memory.update_form
  ∧ update_submission Memory.update_form
  ∧ FormData_get Memory.update_form "initialSlug" = Some (FString "my-post")
  ∧ field Sample.fresh titleRef ≠ ""
  ∧ field Sample.fresh slugRef ≠ ""
  ∧ field Sample.fresh markdownRef ≠ ""
  ∧ receives Memory.perform Authenticated Memory.store
      (Memory.signed_in Memory.update_form) (page_entries Sample.fresh) Memory.store
  ∧ persistence
      (run Memory.perform (Authed.action (Memory.signed_in Memory.update_form))
         Memory.store)
    = [UpdatePost "my-post" Memory.hello_again].
Proof.
  assert (transition_submission (hooks Sample.fresh) = None) as Ht by reflexivity.
  assert (field Sample.fresh titleRef ≠ "") as H1 by discriminate.
  assert (field Sample.fresh slugRef ≠ "") as H2 by discriminate.
  assert (field Sample.fresh markdownRef ≠ "") as H3 by discriminate.
  assert (receives Memory.perform Authenticated Memory.store
            (Memory.signed_in Memory.update_form) (page_entries Sample.fresh)
            Memory.store)
    as Hr by (exists "user-1", Memory.store; split; reflexivity).
  destruct (pressing_update_updates_loaded_post Memory.perform Authenticated
              Sample.fresh Ht) as (Hpress & Hd & Hi & Hupdate).
  split; [exact Ht|]. split; [exact Hpress|]. split; [exact Hd|]. split; [exact Hi|].
  split; [exact H1|]. split; [exact H2|]. split; [exact H3|]. split; [exact Hr|].
  exact (Hupdate H1 H2 H3 _ _ _ Hr).
Defined.


Lemma returned_errors_are_shown_witness :
  result (run Memory.perform (Authed.action (Memory.signed_in Memory.blank_title_form))
            Memory.store)
  = inr (json (ActionData.mk (Some "Title is required") None None))
  ∧ useActionData Sample.rejected
    = Some (ActionData.mk (Some "Title is required") None None)
  ∧ error_texts (AuthedView.EditPostSlug Sample.rejected) = ["Title is required"]
  ∧ useActionData Sample.loaded = None
  ∧ error_texts (AuthedView.EditPostSlug Sample.loaded) = [].
Proof.
  assert (result (run Memory.perform
                    (Authed.action (Memory.signed_in Memory.blank_title_form))
                    Memory.store)
          = inr (json (ActionData.mk (Some "Title is required") None None)))
    as H by (by vm_compute).
  assert (useActionData Sample.rejected
          = Some (ActionData.mk (Some "Title is required") None None))
    as Hdata by reflexivity.
  assert (useActionData Sample.loaded = None) as Hnone by reflexivity.
  split; [exact H|]. split; [exact Hdata|].
  split.
  { exact (proj1 (returned_errors_are_shown Memory.perform Authenticated _ _ _
                    Authenticated Sample.rejected H) Hdata). }
  split; [exact Hnone|].
  exact (proj2 (returned_errors_are_shown Memory.perform Authenticated _ _ _
                  Authenticated Sample.loaded H) Hnone).
Defined.

Lemma progress_label_follows_pressed_button_witness :
  transition_submission (hooks Sample.asking) = None
  ∧ buttons (AuthedView.EditPostSlug
               (hooks (fst (press AuthedView.EditPostSlug None Sample.asking))))
    = [(Some "Updating...", Some true); (Some "Delete Post", Some true)]
  ∧ showDeleteModal (hooks Sample.asking) = true
  ∧ buttons (AuthedView.EditPostSlug
               (hooks (fst (confirm AuthedView.EditPostSlug Sample.asking))))
    = [(Some "Update Post", Some true); (Some "Deleting...", Some true)]
  ∧ dialog_confirm_label
      (AuthedView.EditPostSlug
         (hooks (fst (confirm AuthedView.EditPostSlug Sample.asking))))
    = Some "Deleting...".
Proof.
  assert (transition_submission (hooks Sample.asking) = None) as Ht by reflexivity.
  assert (showDeleteModal (hooks Sample.asking) = true) as Hm by reflexivity.
  destruct (progress_label_follows_pressed_button Sample.asking Ht) as [Hupdate Hdelete].
  split; [exact Ht|]. split; [exact Hupdate|]. split; [exact Hm|]. exact (Hdelete Hm).
Defined.

Lemma unauthenticated_page_shows_updating_for_any_submission_witness :
  buttons (UnauthView.EditPostSlug
             (hooks (fst (press UnauthView.EditPostSlug (Some "_action") Sample.fresh))))
  = [(Some "Updating...", Some true); (Some "Delete Post", Some false)]
  ∧ transition_submission (hooks Sample.fresh) = None
  ∧ buttons (UnauthView.EditPostSlug
               (hooks (fst (press UnauthView.EditPostSlug None Sample.fresh))))
    = [(Some "Updating...", Some true); (Some "Delete Post", Some false)].
Proof.
  assert (transition_submission (hooks Sample.fresh) = None) as Ht by reflexivity.
  destruct (unauthenticated_page_shows_updating_for_any_submission Sample.fresh)
    as [Hdelete Hupdate].
  split; [exact Hdelete|]. split; [exact Ht|]. exact (Hupdate Ht).
Defined.

Lemma nothing_is_submitted_while_submitting_witness :
  transition_submission (hooks Sample.busy) = Some Memory.update_form
  ∧ press AuthedView.EditPostSlug None Sample.busy = (Sample.busy, None)
  ∧ press AuthedView.EditPostSlug (Some "_action") Sample.busy = (Sample.busy, None)
  ∧ confirm AuthedView.EditPostSlug Sample.busy = (Sample.busy, None).
Proof.
  assert (transition_submission (hooks Sample.busy) = Some Memory.update_form)
    as Ht by reflexivity.
  split; [exact Ht|].
  exact (nothing_is_submitted_while_submitting Sample.busy _ Ht).
Defined.

Lemma press_delete_closed_authed page :
  showDeleteModal (hooks page) = false →
  transition_submission (hooks page) = None →
  press AuthedView.EditPostSlug (Some "_action") page
  = ({| hooks := with_state (activeButton (hooks page)) true (hooks page);
        field := field page |}, None).
Proof. intros Hm Ht. on_page page; reflexivity. Qed.

Lemma busy_authed page formData :
  transition_submission (hooks page) = Some formData →
  press AuthedView.EditPostSlug (Some "_action") page = (page, None)
  ∧ confirm AuthedView.EditPostSlug page = (page, None).
Proof.
  intros Ht. destruct (showDeleteModal (hooks page)) eqn:Hm; on_page page; done.
Qed.

Lemma close_authed page :
  showDeleteModal (hooks page) = true →
  close AuthedView.EditPostSlug page
  = {| hooks := with_state (activeButton (hooks page)) false (hooks page);
       field := field page |}.
Proof. intros Hm. on_page page; reflexivity. Qed.

Lemma confirm_without_dialog page :
  showDeleteModal (hooks page) = false →
  confirm AuthedView.EditPostSlug page = (page, None).
Proof. intros Hm. on_page page; reflexivity. Qed.

(** X12: The deletion of a post through the authenticated page takes one
    confirmation and is submitted once: the first click on Delete only
    opens the dialog, confirming makes the delete submission, and
    confirming or clicking again while it is in flight submits nothing
    more. *)
Theorem deletion_is_confirmed_once_and_submitted_once page :
  showDeleteModal (hooks page) = false →
  transition_submission (hooks page) = None →
  snd (press AuthedView.EditPostSlug (Some "_action") page) = None
  ∧ snd (confirm AuthedView.EditPostSlug
           (fst (press AuthedView.EditPostSlug (Some "_action") page)))
    = Some (page_entries page ++ [("_action", FString "delete")])%list
  ∧ snd (confirm AuthedView.EditPostSlug
           (fst (confirm AuthedView.EditPostSlug
                   (fst (press AuthedView.EditPostSlug (Some "_action") page)))))
    = None
  ∧ snd (press AuthedView.EditPostSlug (Some "_action")
           (fst (confirm AuthedView.EditPostSlug
                   (fst (press AuthedView.EditPostSlug (Some "_action") page)))))
    = None.
Proof.
  intros Hm Ht. rewrite (press_delete_closed_authed page Hm Ht). cbn [fst snd].
  split; [done|].
  rewrite confirm_authed by done. cbn [fst snd]. split; [done|].
  destruct (busy_authed
              {| hooks := submitting (page_entries page ++ [("_action", FString "delete")])
                            (with_state (Some "delete") true
                               (with_state (activeButton (hooks page)) true (hooks page)));
                 field := field page |}
              (page_entries page ++ [("_action", FString "delete")]) eq_refl)
    as [Hpress Hconfirm].
  split; [exact (f_equal snd Hconfirm) | exact (f_equal snd Hpress)].
Qed.

(** X13: Closing the dialog cancels the deletion: the dialog is gone, nothing
    else on the page has changed, nothing was submitted, and a later click
    on Delete asks again instead of submitting. *)
Theorem closing_the_dialog_cancels_the_deletion page :
  showDeleteModal (hooks page) = true →
  transition_submission (hooks page) = None →
  close AuthedView.EditPostSlug page
  = {| hooks := with_state (activeButton (hooks page)) false (hooks page);
       field := field page |}
  ∧ dialog (AuthedView.EditPostSlug (hooks (close AuthedView.EditPostSlug page))) = None
  ∧ confirm AuthedView.EditPostSlug (close AuthedView.EditPostSlug page)
    = (close AuthedView.EditPostSlug page, None)
  ∧ press AuthedView.EditPostSlug (Some "_action") (close AuthedView.EditPostSlug page)
    = (page, None).
Proof.
  intros Hm Ht. rewrite (close_authed page Hm). split; [done|].
  split; [on_page page; reflexivity|].
  split; [by apply confirm_without_dialog|].
  rewrite press_delete_closed_authed by done.
  destruct page as [[ad ld ts ab sm] fld]; simpl in *; by subst.
Qed.

Lemma deletion_is_confirmed_once_and_submitted_once_witness :
  showDeleteModal (hooks Sample.fresh) = false
  ∧ transition_submission (hooks Sample.fresh) = None
  ∧ snd (press AuthedView.EditPostSlug (Some "_action") Sample.fresh) = None
  ∧ snd (confirm AuthedView.EditPostSlug
           (fst (press AuthedView.EditPostSlug (Some "_action") Sample.fresh)))
    = Some (Memory.update_form ++ [("_action", FString "delete")])%list
  ∧ snd (confirm AuthedView.EditPostSlug
           (fst (confirm AuthedView.EditPostSlug
                   (fst (press AuthedView.EditPostSlug (Some "_action")
                           Sample.fresh)))))
    = None
  ∧ snd (press AuthedView.EditPostSlug (Some "_action")
           (fst (confirm AuthedView.EditPostSlug
                   (fst (press AuthedView.EditPostSlug (Some "_action")
                           Sample.fresh)))))
    = None.
Proof.
  assert (showDeleteModal (hooks Sample.fresh) = false) as Hm by reflexivity.
  assert (transition_submission (hooks Sample.fresh) = None) as Ht by reflexivity.
  split; [exact Hm|]. split; [exact Ht|].
  exact (deletion_is_confirmed_once_and_submitted_once Sample.fresh Hm Ht).
Defined.

Lemma closing_the_dialog_cancels_the_deletion_witness :
  showDeleteModal (hooks Sample.asking) = true
  ∧ transition_submission (hooks Sample.asking) = None
  ∧ close AuthedView.EditPostSlug Sample.asking = Sample.fresh
  ∧ dialog (AuthedView.EditPostSlug
              (hooks (close AuthedView.EditPostSlug Sample.asking))) = None
  ∧ confirm AuthedView.EditPostSlug (close AuthedView.EditPostSlug Sample.asking)
    = (close AuthedView.EditPostSlug Sample.asking, None)
  ∧ press AuthedView.EditPostSlug (Some "_action")
      (close AuthedView.EditPostSlug Sample.asking)
    = (Sample.asking, None).
Proof.
  assert (showDeleteModal (hooks Sample.asking) = true) as Hm by reflexivity.
  assert (transition_submission (hooks Sample.asking) = None) as Ht by reflexivity.
  split; [exact Hm|]. split; [exact Ht|].
  exact (closing_the_dialog_cancels_the_deletion Sample.asking Hm Ht).
Defined.
